(** * MetriClock: the dual-clock sketch [metriClock.cpp], embedded and verified

    The sketch keeps two counters of the time of day, one in seconds
    ([realTime]) and one in lakhs of 864 ms ([metricTime]), ticks each of them
    from the board's millisecond counter, and re-reads the time from a GPS
    receiver at regular intervals.

    The embedding follows the source function by function.  The libraries the
    sketch links against (TinyGPS++, Time, Timezone) and the width of [int]
    on the board are gathered in the class [Platform]; the millisecond
    counter and the serial line are inputs recorded in the [World]. *)

From Stdlib Require Import ZArith List Bool String Ascii Lia.
Import ListNotations.
Local Open Scope Z_scope.

(** ** Machine integers

    The values of the C++ integer types are kept as [Z]; every operation
    that can leave the range of its type is followed by the wrap-around of
    that type. *)

Module MachineInt.

(** The value of [n] in an unsigned type of [bits] bits. *)
Definition wrapU (bits n : Z) : Z := n mod 2 ^ bits.

(** The value of [n] in a two's complement type of [bits] bits. *)
Definition wrapS (bits n : Z) : Z :=
  (n + 2 ^ (bits - 1)) mod 2 ^ bits - 2 ^ (bits - 1).

(** [byte], [long] and [unsigned long] of the Arduino cores. *)
Definition u8 (n : Z) : Z := wrapU 8 n.
Definition u32 (n : Z) : Z := wrapU 32 n.
Definition s32 (n : Z) : Z := wrapS 32 n.

End MachineInt.
Import MachineInt.

(** ** The platform

    What the sketch takes from outside its own file: the width of [int], the
    TinyGPS++ object, and the Time and Timezone libraries. *)

Class Platform : Type := {
  (** number of bits of [int]: 16 on the AVR boards, 32 on the ARM ones *)
  int_bits : Z;
  int_bits_range : 16 <= int_bits <= 32;

  (** TinyGPS++: the object [gps], [gps.encode(c)], and the accessors of
      [gps.time] and [gps.date], which read the decoded fields *)
  TinyGPSPlus : Type;
  gps_encode : TinyGPSPlus -> Z -> TinyGPSPlus;
  gps_time_isValid : TinyGPSPlus -> bool;
  gps_time_hour : TinyGPSPlus -> Z;
  gps_time_minute : TinyGPSPlus -> Z;
  gps_time_second : TinyGPSPlus -> Z;
  gps_date_day : TinyGPSPlus -> Z;
  gps_date_month : TinyGPSPlus -> Z;
  gps_date_year : TinyGPSPlus -> Z;

  (** Time: the system clock of the library, [setTime(hr, min, sec, day,
      month, yr)], [now()], and the field accessors of a [time_t] *)
  TimeLib : Type;
  setTime : Z -> Z -> Z -> Z -> Z -> Z -> TimeLib -> TimeLib;
  now : TimeLib -> Z * TimeLib;
  hour : Z -> Z;
  minute : Z -> Z;
  second : Z -> Z;

  (** Timezone: [ET.toLocal(utc)] for the rule pair EDT/EST of the sketch *)
  ET_toLocal : Z -> Z
}.

(** [int] of the platform. *)
Definition sInt `{Platform} (n : Z) : Z := wrapS int_bits n.

(** ** The display

    The LiquidCrystal_I2C object is kept as the list of the commands it
    received, the latest first. *)

Inductive LcdOp : Type :=
| LcdInit
| LcdClear
| LcdBacklight
| SetCursor (col row : Z)
| PrintNum (n : Z)
| PrintStr (s : string)
| PrintChar (c : ascii).

(** A command that positions the cursor or writes characters. *)
Definition isWrite (op : LcdOp) : bool :=
  match op with
  | SetCursor _ _ | PrintNum _ | PrintStr _ | PrintChar _ => true
  | _ => false
  end.

(** position of digits on the display from most to least significant *)
Definition DIGITS : list Z := [8; 9; 11; 12; 14; 15].
(** character of the delimiter and where it goes *)
Definition DELIMETER : ascii := ":"%char.
Definition DELIMS : list Z := [10; 13].

(** ** The world: globals of the sketch, library objects, board inputs *)

Section Sketch.

Context `{P : Platform}.

Record World : Type := mkWorld {
  (** [volatile long metricTime], [realTime] *)
  metricTime : Z;
  realTime : Z;
  (** [volatile unsigned long nextMetricTick], [nextRealTick], [lastSync] *)
  nextMetricTick : Z;
  nextRealTick : Z;
  lastSync : Z;
  (** [lcd], [gps] and the system clock of the Time library *)
  lcd : list LcdOp;
  gps : TinyGPSPlus;
  clk : TimeLib;
  (** the hardware counter: the value the n-th call of [millis()] finds, and
      the number of calls made so far *)
  ms_feed : nat -> Z;
  ms_reads : nat;
  (** the serial line: the bytes the n-th draining of [gpsComms] finds, and
      the number of drainings made so far *)
  rx_feed : nat -> list Z;
  rx_drains : nat
}.

Definition set_metricTime (v : Z) (w : World) : World :=
  mkWorld v (realTime w) (nextMetricTick w) (nextRealTick w) (lastSync w)
          (lcd w) (gps w) (clk w) (ms_feed w) (ms_reads w) (rx_feed w) (rx_drains w).
Definition set_realTime (v : Z) (w : World) : World :=
  mkWorld (metricTime w) v (nextMetricTick w) (nextRealTick w) (lastSync w)
          (lcd w) (gps w) (clk w) (ms_feed w) (ms_reads w) (rx_feed w) (rx_drains w).
Definition set_nextMetricTick (v : Z) (w : World) : World :=
  mkWorld (metricTime w) (realTime w) v (nextRealTick w) (lastSync w)
          (lcd w) (gps w) (clk w) (ms_feed w) (ms_reads w) (rx_feed w) (rx_drains w).
Definition set_nextRealTick (v : Z) (w : World) : World :=
  mkWorld (metricTime w) (realTime w) (nextMetricTick w) v (lastSync w)
          (lcd w) (gps w) (clk w) (ms_feed w) (ms_reads w) (rx_feed w) (rx_drains w).
Definition set_lastSync (v : Z) (w : World) : World :=
  mkWorld (metricTime w) (realTime w) (nextMetricTick w) (nextRealTick w) v
          (lcd w) (gps w) (clk w) (ms_feed w) (ms_reads w) (rx_feed w) (rx_drains w).
Definition set_lcd (v : list LcdOp) (w : World) : World :=
  mkWorld (metricTime w) (realTime w) (nextMetricTick w) (nextRealTick w) (lastSync w)
          v (gps w) (clk w) (ms_feed w) (ms_reads w) (rx_feed w) (rx_drains w).
Definition set_gps (v : TinyGPSPlus) (w : World) : World :=
  mkWorld (metricTime w) (realTime w) (nextMetricTick w) (nextRealTick w) (lastSync w)
          (lcd w) v (clk w) (ms_feed w) (ms_reads w) (rx_feed w) (rx_drains w).
Definition set_clk (v : TimeLib) (w : World) : World :=
  mkWorld (metricTime w) (realTime w) (nextMetricTick w) (nextRealTick w) (lastSync w)
          (lcd w) (gps w) v (ms_feed w) (ms_reads w) (rx_feed w) (rx_drains w).
Definition set_ms_reads (v : nat) (w : World) : World :=
  mkWorld (metricTime w) (realTime w) (nextMetricTick w) (nextRealTick w) (lastSync w)
          (lcd w) (gps w) (clk w) (ms_feed w) v (rx_feed w) (rx_drains w).
Definition set_rx_drains (v : nat) (w : World) : World :=
  mkWorld (metricTime w) (realTime w) (nextMetricTick w) (nextRealTick w) (lastSync w)
          (lcd w) (gps w) (clk w) (ms_feed w) (ms_reads w) (rx_feed w) v.

(** *** Commands: functions from the world to a result and the next world *)

Definition M (A : Type) : Type := World -> A * World.

Definition ret {A} (a : A) : M A := fun w => (a, w).
Definition bind {A B} (m : M A) (k : A -> M B) : M B :=
  fun w => let (a, w1) := m w in k a w1.
Definition get {A} (f : World -> A) : M A := fun w => (f w, w).
Definition modify (f : World -> World) : M unit := fun w => (tt, f w).
Definition when (b : bool) (m : M unit) : M unit := if b then m else ret tt.
Definition exec {A} (m : M A) (w : World) : World := snd (m w).

Notation "x <- m ;; k" := (bind m (fun x => k))
  (at level 61, m at next level, right associativity).
Notation "m ;; k" := (bind m (fun _ => k))
  (at level 61, right associativity).

(** [for (byte i = start; i != stop; i--) body], with the variables the body
    updates threaded as [s].  A [byte] meets [stop] within 256 steps, so 256
    is fuel enough for every such loop. *)
Fixpoint for_down_from {S} (fuel : nat) (i stop : Z) (body : Z -> S -> M S) (s : S)
  : M S :=
  match fuel with
  | O => ret s
  | Datatypes.S fuel' =>
      if i =? stop then ret s
      else s' <- body i s ;; for_down_from fuel' (u8 (i - 1)) stop body s'
  end.

Definition for_down {S} (start stop : Z) (body : Z -> S -> M S) (s : S) : M S :=
  for_down_from 256 start stop body s.

(** *** Library calls *)

(** [millis()] *)
Definition millis : M Z :=
  fun w => (u32 (ms_feed w (ms_reads w)), set_ms_reads (S (ms_reads w)) w).

(** [lcd.setCursor], [lcd.print] and the other calls on [lcd] *)
Definition lcd_do (op : LcdOp) : M unit := modify (fun w => set_lcd (op :: lcd w) w).

(** [while (gpsComms.available()) gps.encode(gpsComms.read());] *)
Definition drain : M unit :=
  modify (fun w =>
    set_rx_drains (S (rx_drains w))
      (set_gps (fold_left gps_encode (rx_feed w (rx_drains w)) (gps w)) w)).

(** ** The sketch *)

Definition updateLCD : M unit :=
  (* update the time by iterating digit-by-digit, starting with the lsd *)
  metricTimeCopy <- get metricTime ;;
  for_down 5 0 (fun i metricTimeCopy =>
      lcd_do (SetCursor (nth (Z.to_nat i) DIGITS 0) 0) ;;
      lcd_do (PrintNum (Z.rem metricTimeCopy 10)) ;;
      ret (Z.quot metricTimeCopy 10))
    metricTimeCopy ;;
  (* hours *)
  realTimeCopy <- get realTime ;;
  let hours := sInt (Z.quot realTimeCopy 3600) in
  lcd_do (SetCursor (nth 0 DIGITS 0) 1) ;;
  when (hours <? 10) (lcd_do (PrintStr "0")) ;;
  lcd_do (PrintNum hours) ;;
  (* minutes *)
  let realTimeCopy := Z.rem realTimeCopy 3600 in
  let minutes := sInt (Z.quot realTimeCopy 60) in
  lcd_do (SetCursor (nth 2 DIGITS 0) 1) ;;
  when (minutes <? 10) (lcd_do (PrintStr "0")) ;;
  lcd_do (PrintNum minutes) ;;
  (* seconds *)
  let realTimeCopy := Z.rem realTimeCopy 60 in
  let seconds := sInt realTimeCopy in
  lcd_do (SetCursor (nth 4 DIGITS 0) 1) ;;
  when (seconds <? 10) (lcd_do (PrintStr "0")) ;;
  lcd_do (PrintNum seconds).

Definition getGPSTime : M unit :=
  g <- get gps ;;
  (* skip if the GPS isn't working *)
  if negb (gps_time_isValid g) then ret tt
  else
    (* set the time for the timezone library *)
    modify (fun w =>
      set_clk (setTime (gps_time_hour g) (gps_time_minute g) (gps_time_second g)
                       (gps_date_day g) (gps_date_month g) (gps_date_year g)
                       (clk w)) w).

Definition setRealTime : M unit :=
  (* convert current time to the eastern time zone *)
  utc <- (fun w => (fst (now (clk w)), set_clk (snd (now (clk w))) w)) ;;
  let local := ET_toLocal utc in
  modify (set_realTime 0) ;;
  modify (fun w => set_realTime (s32 (realTime w + s32 (hour local * 3600))) w) ;;
  modify (fun w => set_realTime (s32 (realTime w + sInt (sInt (minute local) * 60))) w) ;;
  modify (fun w => set_realTime (s32 (realTime w + second local)) w) ;;
  t <- millis ;;
  modify (set_nextRealTick (u32 (t + 1000))). (* keep time in sync *)

Definition setMetricTime : M unit :=
  modify (fun w => set_metricTime (Z.quot (s32 (realTime w * 1000)) 864) w) ;;
  modify (fun w => set_metricTime (Z.rem (metricTime w) 100000) w) ;;
  t <- millis ;;
  modify (set_nextMetricTick (u32 (t + 864))). (* keep time in sync *)

Definition updateRealTime (doUpdate : bool) : M unit :=
  modify (fun w => set_realTime (s32 (realTime w + 1)) w) ;;
  modify (fun w => set_realTime (Z.rem (realTime w) 86400) w) ;; (* rollover at midnight *)
  when doUpdate updateLCD.

Definition updateMetricTime (doUpdate : bool) : M unit :=
  modify (fun w => set_metricTime (s32 (metricTime w + 1)) w) ;;
  modify (fun w => set_metricTime (Z.rem (metricTime w) 100000) w) ;; (* rollover at midnight *)
  when doUpdate updateLCD.

Definition syncGPSTime : M unit :=
  getGPSTime ;;
  setRealTime ;;
  setMetricTime ;;
  updateLCD.

(** The wait of [setup] for the receiver: the loop
    [while (gps.time.isValid() == false || isMidnight) { ... }].  It has no
    bound in the source; [fuel] bounds the number of tests of its condition,
    and [None] says the fuel ran out with the loop still waiting. *)
Fixpoint setup_wait (fuel : nat) (isMidnight : bool) (w : World) : option World :=
  match fuel with
  | O => None
  | S fuel' =>
      if negb (gps_time_isValid (gps w)) || isMidnight then
        let w1 := exec drain w in
        setup_wait fuel'
          ((gps_time_hour (gps w1) =? 0) && (gps_time_minute (gps w1) =? 0)) w1
      else Some w
  end.

(** [setup] up to the wait.  [gpsComms.begin(9600)] configures the serial
    port and leaves the modelled state as it is. *)
Definition setup_begin : M unit :=
  (* set up the LCD *)
  lcd_do LcdInit ;;
  lcd_do LcdClear ;;
  lcd_do LcdBacklight ;;
  (* wait for the GPS unit to "warm up" *)
  lcd_do (SetCursor 1 0) ;;
  lcd_do (PrintStr "Acquiring Time") ;;
  lcd_do (SetCursor 2 0) ;;
  lcd_do (PrintStr "Please Wait").

(** [setup] after the wait. *)
Definition setup_finish : M unit :=
  (* finish display setup *)
  lcd_do LcdClear ;;
  (* metric time *)
  lcd_do (SetCursor 0 0) ;;
  lcd_do (PrintStr "Metric:") ;;
  for_down 1 255 (fun i _ =>
      lcd_do (SetCursor (nth (Z.to_nat i) DELIMS 0) 0) ;;
      lcd_do (PrintChar DELIMETER)) tt ;;
  (* real time *)
  lcd_do (SetCursor 0 1) ;;
  lcd_do (PrintStr "Actual:") ;;
  for_down 1 255 (fun i _ =>
      lcd_do (SetCursor (nth (Z.to_nat i) DELIMS 0) 1) ;;
      lcd_do (PrintChar DELIMETER)) tt ;;
  syncGPSTime.

Definition setup (fuel : nat) (w : World) : option World :=
  match setup_wait fuel true (exec setup_begin w) with
  | Some w1 => Some (exec setup_finish w1)
  | None => None
  end.

(** [long syncDelta = millis() - lastSync;] the difference of two
    [unsigned long], converted to [long]. *)
Definition syncDelta (t last : Z) : Z := s32 (u32 (t - last)).

(** [int metricTickDelta = millis() - nextMetricTick;] and
    [int realTickDelta = millis() - nextRealTick;] the difference of two
    [unsigned long], converted to [int]. *)
Definition tickDelta (t next : Z) : Z := sInt (u32 (t - next)).

(** The three blocks of [loop], in the order of the source. *)

Definition loop_sync : M unit :=
  (* avoid conversion issues by only syncing on whole-second covertable ticks *)
  t <- millis ;;
  last <- get lastSync ;;
  let syncDelta := syncDelta t last in
  mt <- get metricTime ;;
  when ((Z.rem mt 125 =? 0) && (5000 <? syncDelta))
    (t' <- millis ;;
     modify (set_lastSync t') ;;
     syncGPSTime).

Definition loop_metric : M unit :=
  (* check if it is time to tick up metricTime *)
  t <- millis ;;
  next <- get nextMetricTick ;;
  let metricTickDelta := tickDelta t next in
  when (0 <=? metricTickDelta)
    (modify (fun w => set_nextMetricTick (u32 (nextMetricTick w + 864)) w) ;;
     updateMetricTime true).

Definition loop_real : M unit :=
  t <- millis ;;
  next <- get nextRealTick ;;
  let realTickDelta := tickDelta t next in
  (* check if it is time to tick up realTime *)
  when (0 <=? realTickDelta)
    (modify (fun w => set_nextRealTick (u32 (nextRealTick w + 1000)) w) ;;
     updateRealTime true).

Definition loop : M unit :=
  (* read all GPS data in the buffer *)
  drain ;;
  loop_sync ;;
  loop_metric ;;
  loop_real.

(** [n] runs of a command, one after the other. *)
Fixpoint times (n : nat) (m : M unit) (w : World) : World :=
  match n with
  | O => w
  | S n' => times n' m (exec m w)
  end.

(** The value the next call of [millis()] returns. *)
Definition next_millis (w : World) : Z := u32 (ms_feed w (ms_reads w)).

(** Whether the blocks of [loop], started in [w], take their branch. *)
Definition syncDue (w : World) : bool :=
  (Z.rem (metricTime w) 125 =? 0) && (5000 <? syncDelta (next_millis w) (lastSync w)).
Definition metricDue (w : World) : bool :=
  0 <=? tickDelta (next_millis w) (nextMetricTick w).
Definition realDue (w : World) : bool :=
  0 <=? tickDelta (next_millis w) (nextRealTick w).

(** The worlds in which the three blocks of one run of [loop] start. *)
Definition at_sync (w : World) : World := exec drain w.
Definition at_metric (w : World) : World := exec loop_sync (at_sync w).
Definition at_real (w : World) : World := exec loop_metric (at_metric w).

(** Among [n] runs of [loop] from [w]: the number of resyncs, of metric ticks
    and of real ticks. *)
Fixpoint resyncs (n : nat) (w : World) : nat :=
  match n with
  | O => O
  | S n' => ((if syncDue (at_sync w) then 1 else 0) + resyncs n' (exec loop w))%nat
  end.
Fixpoint metricTicks (n : nat) (w : World) : nat :=
  match n with
  | O => O
  | S n' => ((if metricDue (at_metric w) then 1 else 0) + metricTicks n' (exec loop w))%nat
  end.
Fixpoint realTicks (n : nat) (w : World) : nat :=
  match n with
  | O => O
  | S n' => ((if realDue (at_real w) then 1 else 0) + realTicks n' (exec loop w))%nat
  end.

(** The state of the sketch when the board starts: the initial values of
    the globals, an empty display log, and the inputs it is going to see. *)
Definition boot (g : TinyGPSPlus) (c : TimeLib) (ms : nat -> Z) (rx : nat -> list Z)
  : World :=
  mkWorld 0 0 864 1000 0 [] g c ms O rx O.

(** *** Vocabulary of the statements *)

(** The commands [ops], in the order they were sent, are what the display
    received between [w] and [w']. *)
Definition emitted (w w' : World) (ops : list LcdOp) : Prop :=
  lcd w' = rev ops ++ lcd w.

(** The decimal digit of [n] of weight [10 ^ k]. *)
Definition digit (n : Z) (k : nat) : Z := (n / 10 ^ Z.of_nat k) mod 10.

(** The writes of one metric digit: the cursor goes to the column
    [DIGITS[i]] of row 0 and the digit of weight [10 ^ (5 - i)] is printed. *)
Definition metricDigit (mt : Z) (i : nat) : list LcdOp :=
  [SetCursor (nth i DIGITS 0) 0; PrintNum (digit mt (5 - i))].

(** The command [m] leaves the observation [f] of the world as it is. *)
Definition keeps {A B} (f : World -> A) (m : M B) : Prop :=
  forall w, f (exec m w) = f w.

(** The observation [f] does not look at the display. *)
Definition lcd_blind {A} (f : World -> A) : Prop :=
  forall v w, f (set_lcd v w) = f w.

(** The five writes of [updateLCD] on the metric row, in the order of the
    loop: from [DIGITS[5]], the least significant digit, to [DIGITS[1]]. *)
Definition metricRow (mt : Z) : list LcdOp :=
  flat_map (metricDigit mt) [5; 4; 3; 2; 1]%nat.

(** The writes of a field of two digits on the real row: a zero is printed
    before a value below ten. *)
Definition twoDigits (col v : Z) : list LcdOp :=
  SetCursor col 1 :: (if v <? 10 then [PrintStr "0"] else []) ++ [PrintNum v].

(** The writes of [updateLCD] on the real row: hours, minutes, seconds. *)
Definition realRow (rt : Z) : list LcdOp :=
  twoDigits 8 (sInt (Z.quot rt 3600)) ++
  twoDigits 11 (sInt (Z.quot (Z.rem rt 3600) 60)) ++
  twoDigits 14 (sInt (Z.rem (Z.rem rt 3600) 60)).

(** The counters are within a day. *)
Definition in_range (w : World) : Prop :=
  0 <= realTime w < 86400 /\ 0 <= metricTime w < 100000.

(** The [unsigned long] globals hold values of their type. *)
Definition well_typed (w : World) : Prop :=
  0 <= nextMetricTick w < 2 ^ 32 /\
  0 <= nextRealTick w < 2 ^ 32 /\
  0 <= lastSync w < 2 ^ 32.

(** The local time [setRealTime] reads in [w]. *)
Definition local_time (w : World) : Z := ET_toLocal (fst (now (clk w))).

(** The receiver holds no time the wait of [setup] accepts: the time is not
    valid, or its hour and its minute are both zero. *)
Definition waiting (g : TinyGPSPlus) : Prop :=
  gps_time_isValid g = false \/ (gps_time_hour g = 0 /\ gps_time_minute g = 0).

End Sketch.

(** ** A bench platform

    A board with a 16-bit [int] and stand-ins for the libraries, on which
    the sketch can be run: the receiver takes the bytes below 60 as the next
    field of the time (hour, minute, second, in this order) and the byte 255
    as the end of a sentence, which makes the time valid; the Time library
    keeps the second of the day it was last set to, and the time zone is
    UTC. *)

Module Bench.

Record Receiver : Type := mkReceiver {
  rc_valid : bool;
  rc_hour : Z;
  rc_minute : Z;
  rc_second : Z
}.

Definition receive (r : Receiver) (b : Z) : Receiver :=
  if b =? 255 then mkReceiver true (rc_hour r) (rc_minute r) (rc_second r)
  else if (0 <=? b) && (b <? 60) then
    mkReceiver (rc_valid r) (rc_minute r) (rc_second r) b
  else r.

#[export] Instance board : Platform := {|
  int_bits := 16;
  int_bits_range := ltac:(lia);
  TinyGPSPlus := Receiver;
  gps_encode := receive;
  gps_time_isValid := rc_valid;
  gps_time_hour := rc_hour;
  gps_time_minute := rc_minute;
  gps_time_second := rc_second;
  gps_date_day := fun _ => 1;
  gps_date_month := fun _ => 1;
  gps_date_year := fun _ => 2023;
  TimeLib := Z;
  setTime := fun hr mi sec _ _ _ _ => hr * 3600 + mi * 60 + sec;
  now := fun c => (c, c);
  hour := fun t => (t / 3600) mod 24;
  minute := fun t => (t / 60) mod 60;
  second := fun t => t mod 60;
  ET_toLocal := fun t => t
|}.

(** A receiver that has decoded nothing, and one that holds a valid time. *)
Definition cold : Receiver := mkReceiver false 0 0 0.
Definition fixed (h m s : Z) : Receiver := mkReceiver true h m s.

(** The world of the bench: the globals with the given values, an empty
    display log, the receiver [r], the clock [c], a counter that reads [ms n]
    at the n-th call, and a serial line that delivers [rx n] at the n-th
    draining. *)
Definition world (mt rt nmt nrt ls : Z) (r : Receiver) (c : Z)
    (ms : nat -> Z) (rx : nat -> list Z) : World :=
  mkWorld mt rt nmt nrt ls [] r c ms O rx O.

(** A serial line on which nothing arrives. *)
Definition silent : nat -> list Z := fun _ => [].

(** Worlds of the runs below. *)

(** A lakh count divisible by 125, 5001 ms after the last resync. *)
Definition aligned : World :=
  world 125 108 864 1000 0 (fixed 12 0 0) 43200 (fun _ => 5001) silent.

(** The same alignment, [2 ^ 31 + 5001] ms after the last resync. *)
Definition late : World :=
  world 0 0 864 1000 0 (fixed 12 0 0) 43200 (fun _ => 2147488649) silent.

(** The metric time 1:23:45 at 12:34:56. *)
Definition midday : World :=
  world 12345 45296 864 1000 0 (fixed 12 34 56) 45296 (fun _ => 0) silent.

(** The receiver reads 23:59:59. *)
Definition last_second : World :=
  world 0 0 864 1000 0 (fixed 23 59 59) 0 (fun _ => 0) silent.

(** A loop that samples the counter every 290 ms, from 870 ms on. *)
Definition running : World :=
  world 1 1 864 1000 0 (fixed 12 0 0) 43200 (fun n => 870 + 290 * Z.of_nat n) silent.

(** The metric deadline is the last value of the counter, and so is the
    counter. *)
Definition brink : World :=
  world 1 1 4294967295 1000 0 (fixed 12 0 0) 43200 (fun _ => 4294967295) silent.

(** The metric deadline is 100 ms before the overflow of the counter, which
    reads 50. *)
Definition wrapped : World :=
  world 1 1 4294967196 1000 0 (fixed 12 0 0) 43200 (fun _ => 50) silent.

(** The last values of the day in both counters. *)
Definition day_end : World :=
  world 99999 86399 864 1000 0 (fixed 12 0 0) 43200 (fun _ => 0) silent.

(** The receiver holds the valid time 00:00:30 and nothing more arrives. *)
Definition half_past_midnight : World :=
  world 0 0 864 1000 0 (fixed 0 0 30) 0 (fun _ => 0) silent.

(** The receiver decodes 00:00:30 first and 00:01:05 two drainings later. *)
Definition warming_up : World :=
  world 0 0 864 1000 0 cold 0 (fun _ => 0)
    (fun n => match n with
              | 0%nat => [0; 0; 30; 255]
              | 2%nat => [0; 1; 5; 255]
              | _ => []
              end).

(** The receiver has decoded nothing; the Time library reads 12:00:00. *)
Definition no_fix : World :=
  world 0 0 864 1000 0 cold 43200 (fun _ => 0) silent.

(** The metric deadline is 864 and the counter reads 40864: the loop has
    stalled for 40 s. *)
Definition stalled : World :=
  world 1 1 864 1000 0 (fixed 12 0 0) 43200 (fun _ => 40864) silent.

(** A resync whose two readings of the counter are 5001 and 5101; the next
    reading is 5990. *)
Definition resynced : World :=
  world 125 108 864 1000 0 (fixed 12 0 0) 43200
    (fun n => match n with 0%nat => 5001 | 1%nat => 5101 | _ => 5990 end) silent.

(** The receiver has decoded nothing, the counters have drifted from the
    clock of the Time library, which reads 12:00:00, and the gate is open. *)
Definition drifted : World :=
  world 125 100 5500 5600 0 cold 43200 (fun _ => 5001) silent.

End Bench.

(** * Properties *)

(** ** Wrap-around *)

Lemma u32_range n : 0 <= u32 n < 2 ^ 32.
Proof. unfold u32, wrapU. apply Z.mod_pos_bound. lia. Qed.

Lemma u32_small n : 0 <= n < 2 ^ 32 -> u32 n = n.
Proof. intros Hn. unfold u32, wrapU. apply Z.mod_small; exact Hn. Qed.

Lemma u32_add_l a b : u32 (u32 a + b) = u32 (a + b).
Proof. unfold u32, wrapU. apply Zplus_mod_idemp_l. Qed.

Lemma s32_small n : - 2 ^ 31 <= n < 2 ^ 31 -> s32 n = n.
Proof.
  intros Hn. unfold s32, wrapS.
  change (2 ^ (32 - 1)) with (2 ^ 31). change (2 ^ 32) with (2 * 2 ^ 31).
  rewrite Z.mod_small; lia.
Qed.

Lemma pow2_half bits : 0 < bits -> 2 ^ bits = 2 * 2 ^ (bits - 1).
Proof.
  intros Hb. replace bits with (Z.succ (bits - 1)) at 1 by lia.
  apply Z.pow_succ_r; lia.
Qed.

Lemma wrapS_small bits n :
  0 < bits -> - 2 ^ (bits - 1) <= n < 2 ^ (bits - 1) -> wrapS bits n = n.
Proof.
  intros Hb Hn. unfold wrapS. rewrite (pow2_half bits Hb).
  rewrite Z.mod_small; lia.
Qed.

(** Reading an [unsigned long] in a signed type that is not wider only
    depends on the value modulo the size of the signed type. *)
Lemma wrapS_u32_add bits a b :
  0 < bits <= 32 -> wrapS bits (u32 a + b) = wrapS bits (a + b).
Proof.
  intros Hb. unfold wrapS, u32, wrapU.
  assert (Hd : 2 ^ 32 = 2 ^ bits * 2 ^ (32 - bits)).
  { rewrite <- Z.pow_add_r by lia. f_equal; lia. }
  f_equal.
  pose proof (Z.div_mod a (2 ^ 32) ltac:(lia)) as Ha.
  assert (Hr : a mod 2 ^ 32 = a - 2 ^ bits * 2 ^ (32 - bits) * (a / 2 ^ 32))
    by (rewrite <- Hd; lia).
  rewrite Hr.
  replace (a - 2 ^ bits * 2 ^ (32 - bits) * (a / 2 ^ 32) + b + 2 ^ (bits - 1))
    with (a + b + 2 ^ (bits - 1) + (- (2 ^ (32 - bits) * (a / 2 ^ 32))) * 2 ^ bits)
    by ring.
  apply Z_mod_plus_full.
Qed.

Lemma wrapS_u32 bits n : 0 < bits <= 32 -> wrapS bits (u32 n) = wrapS bits n.
Proof.
  intros Hb. pose proof (wrapS_u32_add bits n 0 Hb) as H.
  rewrite !Z.add_0_r in H. exact H.
Qed.

(** The signed difference of two counter values that are [d] apart. *)
Lemma wrapS_elapsed bits next d :
  0 < bits <= 32 -> - 2 ^ (bits - 1) <= d < 2 ^ (bits - 1) ->
  wrapS bits (u32 (u32 (next + d) - next)) = d.
Proof.
  intros Hb Hd. rewrite wrapS_u32 by exact Hb.
  unfold Z.sub at 1. rewrite wrapS_u32_add by exact Hb.
  replace (next + d + - next) with d by ring.
  apply wrapS_small; lia.
Qed.

Lemma wrapS_upper bits n :
  0 < bits -> 2 ^ (bits - 1) <= n < 2 ^ bits -> wrapS bits n = n - 2 ^ bits.
Proof.
  intros Hb Hn. unfold wrapS. pose proof (pow2_half bits Hb) as Hp.
  replace (n + 2 ^ (bits - 1)) with (n - 2 ^ (bits - 1) + 1 * 2 ^ bits) by lia.
  rewrite Z_mod_plus_full, Z.mod_small; lia.
Qed.

(** C++ [%] and [/] on operands that are not negative. *)
Lemma rem_nonneg a b : 0 <= a -> 0 < b -> Z.rem a b = a mod b.
Proof. intros Ha Hb. apply Z.rem_mod_nonneg; lia. Qed.

Lemma quot_nonneg a b : 0 <= a -> 0 < b -> Z.quot a b = a / b.
Proof. intros Ha Hb. apply Z.quot_div_nonneg; lia. Qed.

Lemma rem_zero_iff a b : 0 < b -> Z.rem a b = 0 <-> a mod b = 0.
Proof.
  intros Hb. rewrite Z.rem_divide, Z.mod_divide by lia. reflexivity.
Qed.

Section Facts.

Context `{P : Platform}.

(** ** Running commands *)

Lemma exec_bind {A B} (m : M A) (k : A -> M B) w :
  exec (bind m k) w = exec (k (fst (m w))) (exec m w).
Proof. unfold exec, bind. destruct (m w); reflexivity. Qed.

Lemma exec_ret {A} (a : A) w : exec (ret a) w = w.
Proof. reflexivity. Qed.

Lemma exec_modify g w : exec (modify g) w = g w.
Proof. reflexivity. Qed.

Lemma exec_when b m w : exec (when b m) w = if b then exec m w else w.
Proof. destruct b; reflexivity. Qed.

Lemma bind_get {A B} (f : World -> A) (k : A -> M B) w :
  bind (get f) k w = k (f w) w.
Proof. reflexivity. Qed.

Lemma bind_millis {B} (k : Z -> M B) w :
  bind millis k w = k (next_millis w) (set_ms_reads (S (ms_reads w)) w).
Proof. reflexivity. Qed.

(** The loop of [updateLCD] runs its body for 5, 4, 3, 2 and 1. *)
Lemma for_down_5_0 {S} (body : Z -> S -> M S) (s : S) :
  for_down 5 0 body s =
  bind (body 5 s) (fun s1 => bind (body 4 s1) (fun s2 => bind (body 3 s2) (fun s3 =>
  bind (body 2 s3) (fun s4 => bind (body 1 s4) (fun s5 => ret s5))))).
Proof. reflexivity. Qed.

(** The loops of [setup] run their body for 1 and 0. *)
Lemma for_down_1_255 {S} (body : Z -> S -> M S) (s : S) :
  for_down 1 255 body s =
  bind (body 1 s) (fun s1 => bind (body 0 s1) (fun s2 => ret s2)).
Proof. reflexivity. Qed.

(** ** What a command keeps *)

Lemma keeps_ret {A B} (f : World -> A) (b : B) : keeps f (ret b).
Proof. intros w. reflexivity. Qed.

Lemma keeps_get {A B} (f : World -> A) (g : World -> B) : keeps f (get g).
Proof. intros w. reflexivity. Qed.

Lemma keeps_modify {A} (f : World -> A) g :
  (forall w, f (g w) = f w) -> keeps f (modify g).
Proof. intros Hg w. apply Hg. Qed.

Lemma keeps_bind {A B C} (f : World -> A) (m : M B) (k : B -> M C) :
  keeps f m -> (forall b, keeps f (k b)) -> keeps f (bind m k).
Proof.
  intros Hm Hk w. rewrite exec_bind, Hk. apply Hm.
Qed.

Lemma keeps_when {A} (f : World -> A) b m : keeps f m -> keeps f (when b m).
Proof. intros Hm w. rewrite exec_when. destruct b; [apply Hm | reflexivity]. Qed.

Lemma keeps_if {A B} (f : World -> A) (b : bool) (m1 m2 : M B) :
  keeps f m1 -> keeps f m2 -> keeps f (if b then m1 else m2).
Proof. destruct b; trivial. Qed.

Lemma keeps_for_down_from {A S} (f : World -> A) fuel i stop
    (body : Z -> S -> M S) s :
  (forall j t, keeps f (body j t)) -> keeps f (for_down_from fuel i stop body s).
Proof.
  intros Hbody. revert i s.
  induction fuel as [|fuel IH]; intros i s; simpl.
  - apply keeps_ret.
  - destruct (i =? stop).
    + apply keeps_ret.
    + apply keeps_bind; [apply Hbody | intros s'; apply IH].
Qed.

Lemma keeps_for_down {A S} (f : World -> A) start stop (body : Z -> S -> M S) s :
  (forall j t, keeps f (body j t)) -> keeps f (for_down start stop body s).
Proof. apply keeps_for_down_from. Qed.

Lemma keeps_lcd_do {A} (f : World -> A) op : lcd_blind f -> keeps f (lcd_do op).
Proof. intros Hf w. apply Hf. Qed.

(** Commands are taken apart down to the assignments, which are settled by
    computation. *)
Ltac frame :=
  repeat first
    [ apply keeps_ret
    | apply keeps_get
    | apply keeps_when
    | apply keeps_if
    | apply keeps_for_down; intros
    | apply keeps_bind; [ | intros ]
    | assumption
    | solve [ apply keeps_lcd_do; assumption ]
    | solve [ apply keeps_modify; intros; reflexivity ]
    | solve [ intros ?; reflexivity ] ].

(** ** [updateLCD] *)

Lemma updateLCD_keeps {A} (f : World -> A) : lcd_blind f -> keeps f updateLCD.
Proof. intros Hf. unfold updateLCD. frame. Qed.

(** The display log after [updateLCD], as the source computes it: the
    digits are the remainders of the successive quotients by ten. *)
Lemma updateLCD_log w :
  emitted w (exec updateLCD w)
    ([SetCursor 15 0; PrintNum (Z.rem (metricTime w) 10);
      SetCursor 14 0; PrintNum (Z.rem (Z.quot (metricTime w) 10) 10);
      SetCursor 12 0; PrintNum (Z.rem (Z.quot (Z.quot (metricTime w) 10) 10) 10);
      SetCursor 11 0;
      PrintNum (Z.rem (Z.quot (Z.quot (Z.quot (metricTime w) 10) 10) 10) 10);
      SetCursor 9 0;
      PrintNum (Z.rem (Z.quot (Z.quot (Z.quot (Z.quot (metricTime w) 10) 10) 10) 10) 10)]
     ++ realRow (realTime w)).
Proof.
  unfold emitted, updateLCD, exec. rewrite bind_get, for_down_5_0.
  unfold realRow, twoDigits.
  destruct w as [mt rt nmt nrt ls l g c ms mr rx rd].
  cbv beta iota zeta delta
    [bind ret get modify when lcd_do fst snd set_lcd
     metricTime realTime nextMetricTick nextRealTick lastSync lcd gps clk
     ms_feed ms_reads rx_feed rx_drains nth Z.to_nat Pos.to_nat Pos.iter_op
     Init.Nat.add DIGITS].
  destruct (sInt (Z.quot rt 3600) <? 10),
           (sInt (Z.quot (Z.rem rt 3600) 60) <? 10),
           (sInt (Z.rem (Z.rem rt 3600) 60) <? 10); reflexivity.
Qed.

(** Everything but the display log is as before [updateLCD]. *)
Lemma updateLCD_world w : exec updateLCD w = set_lcd (lcd (exec updateLCD w)) w.
Proof.
  pose proof (updateLCD_keeps (set_lcd []) (fun v w0 => eq_refl) w) as H.
  destruct (exec updateLCD w), w. cbv in H. injection H as -> -> -> -> -> -> -> -> -> -> ->.
  reflexivity.
Qed.

Lemma realRow_writes rt : forallb isWrite (realRow rt) = true.
Proof.
  unfold realRow, twoDigits.
  destruct (_ <? 10), (_ <? 10), (_ <? 10); reflexivity.
Qed.

Lemma realRow_row rt col row : In (SetCursor col row) (realRow rt) -> row = 1.
Proof.
  unfold realRow, twoDigits.
  destruct (_ <? 10), (_ <? 10), (_ <? 10); simpl; intros H;
    repeat (destruct H as [H | H]; [ first [ discriminate H | injection H; intros; subst; reflexivity ] | ]);
    destruct H.
Qed.

(** The digits the loop of [updateLCD] prints are the decimal digits. *)
Lemma metricRow_code mt :
  0 <= mt ->
  [SetCursor 15 0; PrintNum (Z.rem mt 10);
   SetCursor 14 0; PrintNum (Z.rem (Z.quot mt 10) 10);
   SetCursor 12 0; PrintNum (Z.rem (Z.quot (Z.quot mt 10) 10) 10);
   SetCursor 11 0; PrintNum (Z.rem (Z.quot (Z.quot (Z.quot mt 10) 10) 10) 10);
   SetCursor 9 0;
   PrintNum (Z.rem (Z.quot (Z.quot (Z.quot (Z.quot mt 10) 10) 10) 10) 10)]
  = metricRow mt.
Proof.
  intros Hmt.
  assert (H1 : 0 <= mt / 10) by (apply Z.div_pos; lia).
  assert (H2 : 0 <= mt / 10 / 10) by (apply Z.div_pos; lia).
  assert (H3 : 0 <= mt / 10 / 10 / 10) by (apply Z.div_pos; lia).
  assert (H4 : 0 <= mt / 10 / 10 / 10 / 10) by (apply Z.div_pos; lia).
  rewrite (quot_nonneg mt 10), (quot_nonneg (mt / 10) 10),
    (quot_nonneg (mt / 10 / 10) 10), (quot_nonneg (mt / 10 / 10 / 10) 10) by lia.
  rewrite !rem_nonneg by lia.
  rewrite !Z.div_div by lia.
  unfold metricRow, metricDigit, digit. cbn [flat_map app nth DIGITS Nat.sub].
  change (10 ^ Z.of_nat 0) with 1. change (10 ^ Z.of_nat 1) with 10.
  change (10 ^ Z.of_nat 2) with (10 * 10). change (10 ^ Z.of_nat 3) with (10 * 10 * 10).
  change (10 ^ Z.of_nat 4) with (10 * 10 * 10 * 10).
  rewrite Z.div_1_r. reflexivity.
Qed.

(** On the metric row the cursor only goes to [DIGITS[1]] .. [DIGITS[5]]. *)
Lemma metricRow_columns mt col row :
  In (SetCursor col row) (metricRow mt) -> row = 0 /\ In col (tl DIGITS).
Proof.
  unfold metricRow, metricDigit. cbn [flat_map app nth DIGITS Nat.sub tl].
  intros H.
  repeat (destruct H as [H | H];
          [ first [ discriminate H | injection H; intros; subst; split; [reflexivity | simpl; auto 10] ] | ]).
  destruct H.
Qed.

(** ** The ticks *)

Ltac exec_steps :=
  repeat (rewrite ?exec_bind, ?exec_modify, ?exec_ret, ?exec_when; cbv beta).

Lemma updateRealTime_realTime b w :
  realTime (exec (updateRealTime b) w) = Z.rem (s32 (realTime w + 1)) 86400.
Proof.
  unfold updateRealTime. exec_steps.
  destruct b; [rewrite (updateLCD_keeps realTime) by (intros ? ?; reflexivity) | ];
    reflexivity.
Qed.

Lemma updateMetricTime_metricTime b w :
  metricTime (exec (updateMetricTime b) w) = Z.rem (s32 (metricTime w + 1)) 100000.
Proof.
  unfold updateMetricTime. exec_steps.
  destruct b; [rewrite (updateLCD_keeps metricTime) by (intros ? ?; reflexivity) | ];
    reflexivity.
Qed.

Lemma updateRealTime_keeps {A} (f : World -> A) b :
  lcd_blind f -> (forall v w, f (set_realTime v w) = f w) ->
  keeps f (updateRealTime b).
Proof.
  intros Hl Hr. unfold updateRealTime.
  repeat (apply keeps_bind; [ | intros ]).
  - apply keeps_modify. intros w. apply Hr.
  - apply keeps_modify. intros w. apply Hr.
  - apply keeps_when, updateLCD_keeps, Hl.
Qed.

Lemma updateMetricTime_keeps {A} (f : World -> A) b :
  lcd_blind f -> (forall v w, f (set_metricTime v w) = f w) ->
  keeps f (updateMetricTime b).
Proof.
  intros Hl Hr. unfold updateMetricTime.
  repeat (apply keeps_bind; [ | intros ]).
  - apply keeps_modify. intros w. apply Hr.
  - apply keeps_modify. intros w. apply Hr.
  - apply keeps_when, updateLCD_keeps, Hl.
Qed.

(** One tick from a counter within the day: the successor modulo the day. *)
Lemma tick_rollover n day :
  0 < day < 2 ^ 30 -> 0 <= n < day -> Z.rem (s32 (n + 1)) day = (n + 1) mod day.
Proof.
  intros Hday Hn. rewrite s32_small by lia. apply rem_nonneg; lia.
Qed.

Lemma real_ticks n b w :
  0 <= realTime w < 86400 ->
  realTime (times n (updateRealTime b) w) = (realTime w + Z.of_nat n) mod 86400.
Proof.
  revert w. induction n as [|n IH]; intros w Hw.
  - simpl. rewrite Z.add_0_r, Z.mod_small; lia.
  - cbn [times].
    assert (Hstep : realTime (exec (updateRealTime b) w) = (realTime w + 1) mod 86400)
      by (rewrite updateRealTime_realTime; apply tick_rollover; lia).
    rewrite IH by (rewrite Hstep; apply Z.mod_pos_bound; lia).
    rewrite Hstep, Zplus_mod_idemp_l. f_equal. lia.
Qed.

Lemma metric_ticks n b w :
  0 <= metricTime w < 100000 ->
  metricTime (times n (updateMetricTime b) w) = (metricTime w + Z.of_nat n) mod 100000.
Proof.
  revert w. induction n as [|n IH]; intros w Hw.
  - simpl. rewrite Z.add_0_r, Z.mod_small; lia.
  - cbn [times].
    assert (Hstep : metricTime (exec (updateMetricTime b) w) = (metricTime w + 1) mod 100000)
      by (rewrite updateMetricTime_metricTime; apply tick_rollover; lia).
    rewrite IH by (rewrite Hstep; apply Z.mod_pos_bound; lia).
    rewrite Hstep, Zplus_mod_idemp_l. f_equal. lia.
Qed.

(** ** The resync *)

Lemma int_half : 2 ^ 15 <= 2 ^ (int_bits - 1).
Proof. pose proof int_bits_range. apply Z.pow_le_mono_r; lia. Qed.

Lemma sInt_small n : - 2 ^ 15 <= n < 2 ^ 15 -> sInt n = n.
Proof.
  intros Hn. pose proof int_half. pose proof int_bits_range.
  apply wrapS_small; lia.
Qed.

Lemma getGPSTime_invalid w :
  gps_time_isValid (gps w) = false -> getGPSTime w = (tt, w).
Proof.
  intros Hv. unfold getGPSTime. rewrite bind_get, Hv. reflexivity.
Qed.

Lemma getGPSTime_keeps {A} (f : World -> A) :
  (forall v w, f (set_clk v w) = f w) -> keeps f getGPSTime.
Proof.
  intros Hf. unfold getGPSTime.
  apply keeps_bind; [apply keeps_get | intros g].
  apply keeps_if; [apply keeps_ret | apply keeps_modify; intros w; apply Hf].
Qed.

Lemma setRealTime_realTime w :
  realTime (exec setRealTime w) =
  s32 (s32 (s32 (0 + s32 (hour (local_time w) * 3600))
            + sInt (sInt (minute (local_time w)) * 60))
       + second (local_time w)).
Proof. reflexivity. Qed.

Lemma setMetricTime_metricTime w :
  metricTime (exec setMetricTime w) =
  Z.rem (Z.quot (s32 (realTime w * 1000)) 864) 100000.
Proof. reflexivity. Qed.

Lemma setMetricTime_realTime w : realTime (exec setMetricTime w) = realTime w.
Proof. reflexivity. Qed.

Lemma syncGPSTime_run w :
  exec syncGPSTime w =
  exec updateLCD (exec setMetricTime (exec setRealTime (exec getGPSTime w))).
Proof. unfold syncGPSTime. exec_steps. reflexivity. Qed.

(** The second of the day of a time of day, as [setRealTime] adds it up. *)
Lemma seconds_of_day h m s :
  0 <= h <= 23 -> 0 <= m <= 59 -> 0 <= s <= 59 ->
  s32 (s32 (s32 (0 + s32 (h * 3600)) + sInt (sInt m * 60)) + s)
  = h * 3600 + m * 60 + s.
Proof.
  intros Hh Hm Hs.
  rewrite (sInt_small m) by lia. rewrite (sInt_small (m * 60)) by lia.
  rewrite (s32_small (h * 3600)) by lia.
  rewrite (s32_small (0 + h * 3600)) by lia.
  rewrite (s32_small (0 + h * 3600 + m * 60)) by lia.
  rewrite s32_small by lia. lia.
Qed.

(** The lakh of the day of a second of the day, as [setMetricTime] converts
    it. *)
Lemma lakhs_of_day rt :
  0 <= rt < 86400 ->
  Z.rem (Z.quot (s32 (rt * 1000)) 864) 100000 = (rt * 1000 / 864) mod 100000.
Proof.
  intros Hrt. rewrite s32_small by lia.
  rewrite quot_nonneg by lia.
  apply rem_nonneg; [apply Z.div_pos; lia | lia].
Qed.

Lemma syncGPSTime_realTime w :
  realTime (exec syncGPSTime w) = realTime (exec setRealTime (exec getGPSTime w)).
Proof.
  rewrite syncGPSTime_run.
  rewrite (updateLCD_keeps realTime) by (intros ? ?; reflexivity).
  apply setMetricTime_realTime.
Qed.

Lemma syncGPSTime_metricTime w :
  metricTime (exec syncGPSTime w) =
  Z.rem (Z.quot (s32 (realTime (exec syncGPSTime w) * 1000)) 864) 100000.
Proof.
  rewrite syncGPSTime_realTime, syncGPSTime_run.
  rewrite (updateLCD_keeps metricTime) by (intros ? ?; reflexivity).
  rewrite setMetricTime_metricTime. reflexivity.
Qed.

Lemma resync_values w h m s :
  hour (local_time (exec getGPSTime w)) = h ->
  minute (local_time (exec getGPSTime w)) = m ->
  second (local_time (exec getGPSTime w)) = s ->
  0 <= h <= 23 -> 0 <= m <= 59 -> 0 <= s <= 59 ->
  realTime (exec syncGPSTime w) = h * 3600 + m * 60 + s /\
  metricTime (exec syncGPSTime w) = ((h * 3600 + m * 60 + s) * 1000 / 864) mod 100000.
Proof.
  intros Eh Em Es Hh Hm Hs.
  assert (Hrt : realTime (exec syncGPSTime w) = h * 3600 + m * 60 + s).
  { rewrite syncGPSTime_realTime, setRealTime_realTime, Eh, Em, Es.
    apply seconds_of_day; assumption. }
  split; [exact Hrt | ].
  rewrite syncGPSTime_metricTime, Hrt. apply lakhs_of_day. lia.
Qed.

(** ** The blocks of [loop] *)

Lemma exec_millis w : exec millis w = set_ms_reads (S (ms_reads w)) w.
Proof. reflexivity. Qed.

Lemma snd_exec {A} (m : M A) w : snd (m w) = exec m w.
Proof. reflexivity. Qed.

Lemma loop_sync_run w :
  exec loop_sync w =
  if syncDue w
  then exec syncGPSTime
         (set_lastSync (next_millis (exec millis w)) (exec millis (exec millis w)))
  else exec millis w.
Proof.
  unfold loop_sync, syncDue. unfold exec at 1.
  rewrite bind_millis, bind_get, bind_get. cbv beta zeta.
  change (lastSync (set_ms_reads (S (ms_reads w)) w)) with (lastSync w).
  change (metricTime (set_ms_reads (S (ms_reads w)) w)) with (metricTime w).
  rewrite snd_exec, exec_when, <- exec_millis.
  destruct ((Z.rem (metricTime w) 125 =? 0)
            && (5000 <? syncDelta (next_millis w) (lastSync w))); [ | reflexivity].
  unfold exec at 1. rewrite bind_millis. cbv beta.
  rewrite snd_exec, exec_bind, exec_modify, <- exec_millis. reflexivity.
Qed.

Lemma loop_metric_run w :
  exec loop_metric w =
  if metricDue w
  then exec (updateMetricTime true)
         (set_nextMetricTick (u32 (nextMetricTick w + 864)) (exec millis w))
  else exec millis w.
Proof.
  unfold loop_metric, metricDue. unfold exec at 1.
  rewrite bind_millis, bind_get. cbv beta zeta.
  change (nextMetricTick (set_ms_reads (S (ms_reads w)) w)) with (nextMetricTick w).
  rewrite snd_exec, exec_when, <- exec_millis.
  destruct (0 <=? tickDelta (next_millis w) (nextMetricTick w)); [ | reflexivity].
  rewrite exec_bind, exec_modify. reflexivity.
Qed.

Lemma loop_real_run w :
  exec loop_real w =
  if realDue w
  then exec (updateRealTime true)
         (set_nextRealTick (u32 (nextRealTick w + 1000)) (exec millis w))
  else exec millis w.
Proof.
  unfold loop_real, realDue. unfold exec at 1.
  rewrite bind_millis, bind_get. cbv beta zeta.
  change (nextRealTick (set_ms_reads (S (ms_reads w)) w)) with (nextRealTick w).
  rewrite snd_exec, exec_when, <- exec_millis.
  destruct (0 <=? tickDelta (next_millis w) (nextRealTick w)); [ | reflexivity].
  rewrite exec_bind, exec_modify. reflexivity.
Qed.

Lemma loop_run w : exec loop w = exec loop_real (at_real w).
Proof. unfold loop, at_real, at_metric, at_sync. exec_steps. reflexivity. Qed.

(** What the resync and the blocks keep. *)

Lemma setRealTime_keeps_lastSync : keeps lastSync setRealTime.
Proof. intros w. reflexivity. Qed.

Lemma syncGPSTime_keeps_lastSync : keeps lastSync syncGPSTime.
Proof.
  intros w. rewrite syncGPSTime_run.
  rewrite (updateLCD_keeps lastSync) by (intros ? ?; reflexivity).
  change (lastSync (exec getGPSTime w) = lastSync w).
  apply getGPSTime_keeps. intros ? ?; reflexivity.
Qed.

Lemma loop_metric_keeps {A} (f : World -> A) :
  lcd_blind f -> (forall v w, f (set_metricTime v w) = f w) ->
  (forall v w, f (set_nextMetricTick v w) = f w) ->
  (forall v w, f (set_ms_reads v w) = f w) ->
  keeps f loop_metric.
Proof.
  intros Hl Hm Hn Hr w. rewrite loop_metric_run, exec_millis.
  destruct (metricDue w); [ | apply Hr].
  rewrite (updateMetricTime_keeps f true Hl Hm), Hn. apply Hr.
Qed.

Lemma loop_real_keeps {A} (f : World -> A) :
  lcd_blind f -> (forall v w, f (set_realTime v w) = f w) ->
  (forall v w, f (set_nextRealTick v w) = f w) ->
  (forall v w, f (set_ms_reads v w) = f w) ->
  keeps f loop_real.
Proof.
  intros Hl Hm Hn Hr w. rewrite loop_real_run, exec_millis.
  destruct (realDue w); [ | apply Hr].
  rewrite (updateRealTime_keeps f true Hl Hm), Hn. apply Hr.
Qed.

Lemma loop_sync_idle w : syncDue w = false -> exec loop_sync w = exec millis w.
Proof. intros H. rewrite loop_sync_run, H. reflexivity. Qed.

(** The deadline of a clock after its block. *)

Lemma loop_metric_deadline w :
  nextMetricTick (exec loop_metric w) =
  if metricDue w then u32 (nextMetricTick w + 864) else nextMetricTick w.
Proof.
  rewrite loop_metric_run. destruct (metricDue w); [ | reflexivity].
  rewrite (updateMetricTime_keeps nextMetricTick) by (intros ? ?; reflexivity).
  reflexivity.
Qed.

Lemma loop_real_deadline w :
  nextRealTick (exec loop_real w) =
  if realDue w then u32 (nextRealTick w + 1000) else nextRealTick w.
Proof.
  rewrite loop_real_run. destruct (realDue w); [ | reflexivity].
  rewrite (updateRealTime_keeps nextRealTick) by (intros ? ?; reflexivity).
  reflexivity.
Qed.

(** The deadlines after one run of [loop] in which no resync takes place. *)
Lemma loop_deadlines w :
  syncDue (at_sync w) = false ->
  nextMetricTick (exec loop w) =
    (if metricDue (at_metric w) then u32 (nextMetricTick w + 864) else nextMetricTick w) /\
  nextRealTick (exec loop w) =
    (if realDue (at_real w) then u32 (nextRealTick w + 1000) else nextRealTick w).
Proof.
  intros Hs. rewrite loop_run.
  assert (Hm : nextMetricTick (at_metric w) = nextMetricTick w).
  { unfold at_metric. rewrite loop_sync_idle by exact Hs. reflexivity. }
  assert (Hr : nextRealTick (at_metric w) = nextRealTick w).
  { unfold at_metric. rewrite loop_sync_idle by exact Hs. reflexivity. }
  split.
  - rewrite (loop_real_keeps nextMetricTick) by (intros ? ?; reflexivity).
    unfold at_real. rewrite loop_metric_deadline, Hm. reflexivity.
  - assert (Hr' : nextRealTick (at_real w) = nextRealTick w).
    { unfold at_real.
      rewrite (loop_metric_keeps nextRealTick) by (intros ? ?; reflexivity).
      exact Hr. }
    rewrite loop_real_deadline, Hr'. reflexivity.
Qed.

Lemma u32_step a b k : u32 (u32 (a + b) + b * k) = u32 (a + b * (1 + k)).
Proof. rewrite u32_add_l. f_equal. ring. Qed.

Lemma schedule n w :
  resyncs n w = 0%nat ->
  0 <= nextMetricTick w < 2 ^ 32 -> 0 <= nextRealTick w < 2 ^ 32 ->
  nextMetricTick (times n loop w) =
    u32 (nextMetricTick w + 864 * Z.of_nat (metricTicks n w)) /\
  nextRealTick (times n loop w) =
    u32 (nextRealTick w + 1000 * Z.of_nat (realTicks n w)).
Proof.
  revert w. induction n as [|n IH]; intros w Hs Hm Hr.
  - simpl. rewrite !Z.add_0_r, !u32_small by assumption. split; reflexivity.
  - cbn [resyncs] in Hs. cbn [times metricTicks realTicks].
    destruct (syncDue (at_sync w)) eqn:Hdue; [discriminate Hs | ].
    destruct (loop_deadlines w Hdue) as [Em Er].
    destruct (IH (exec loop w)) as [IHm IHr].
    + exact Hs.
    + rewrite Em. destruct (metricDue (at_metric w)); [apply u32_range | exact Hm].
    + rewrite Er. destruct (realDue (at_real w)); [apply u32_range | exact Hr].
    + rewrite IHm, IHr, Em, Er. split.
      * destruct (metricDue (at_metric w)).
        -- rewrite Nat2Z.inj_add. apply u32_step.
        -- reflexivity.
      * destruct (realDue (at_real w)).
        -- rewrite Nat2Z.inj_add. apply u32_step.
        -- reflexivity.
Qed.

(** ** The wait of [setup] *)

Lemma waiting_test g :
  negb (gps_time_isValid g) || ((gps_time_hour g =? 0) && (gps_time_minute g =? 0)) = true
  <-> waiting g.
Proof.
  unfold waiting.
  rewrite orb_true_iff, negb_true_iff, andb_true_iff, !Z.eqb_eq. reflexivity.
Qed.

Lemma not_waiting g :
  ~ waiting g <->
  gps_time_isValid g = true /\ ~ (gps_time_hour g = 0 /\ gps_time_minute g = 0).
Proof.
  unfold waiting. destruct (gps_time_isValid g); split.
  - intros H. split; [reflexivity | tauto].
  - intros [_ H] [H' | H']; [discriminate | tauto].
  - intros H. exfalso. apply H. left. reflexivity.
  - intros [H _]. discriminate.
Qed.

(** The wait only ends on a receiver that holds an accepted time. *)
Lemma setup_wait_sound fuel : forall b w w',
  (b = false -> ~ (gps_time_hour (gps w) = 0 /\ gps_time_minute (gps w) = 0)) ->
  setup_wait fuel b w = Some w' -> ~ waiting (gps w').
Proof.
  induction fuel as [|fuel IH]; intros b w w' Hb Hrun; simpl in Hrun.
  - discriminate.
  - destruct (negb (gps_time_isValid (gps w)) || b) eqn:Hc.
    + apply IH in Hrun; [exact Hrun | ].
      rewrite andb_false_iff, !Z.eqb_neq. tauto.
    + injection Hrun as <-. apply orb_false_iff in Hc as [Hv ->].
      apply negb_false_iff in Hv. apply not_waiting. split; [exact Hv | auto].
Qed.

(** Once in the loop, the wait ends at the first drained state that holds an
    accepted time. *)
Lemma setup_wait_from k : forall w fuel,
  (forall j, (j < k)%nat -> waiting (gps (times j drain w))) ->
  ~ waiting (gps (times k drain w)) -> (k < fuel)%nat ->
  setup_wait fuel ((gps_time_hour (gps w) =? 0) && (gps_time_minute (gps w) =? 0)) w
  = Some (times k drain w).
Proof.
  induction k as [|k IH]; intros w fuel Hbefore Hat Hfuel;
    (destruct fuel as [|fuel]; [lia | ]); cbn [setup_wait times].
  - cbn [times] in Hat. rewrite <- waiting_test in Hat.
    destruct (negb _ || _); [exfalso; apply Hat; reflexivity | reflexivity].
  - pose proof (Hbefore 0%nat ltac:(lia)) as H0. cbn [times] in H0.
    rewrite <- waiting_test in H0. rewrite H0.
    apply IH; [ | exact Hat | lia].
    intros j Hj. apply (Hbefore (S j)). lia.
Qed.

Lemma setup_wait_first k w fuel :
  (1 <= k)%nat ->
  (forall j, (1 <= j < k)%nat -> waiting (gps (times j drain w))) ->
  ~ waiting (gps (times k drain w)) -> (k < fuel)%nat ->
  setup_wait fuel true w = Some (times k drain w).
Proof.
  intros Hk Hbefore Hat Hfuel.
  destruct k as [|k]; [lia | ]. destruct fuel as [|fuel]; [lia | ].
  cbn [setup_wait times]. rewrite orb_true_r.
  apply setup_wait_from; [ | exact Hat | lia].
  intros j Hj. apply (Hbefore (S j)). lia.
Qed.

(** As long as every drained state is refused the wait goes on. *)
Lemma setup_wait_on n : forall w,
  (forall j, (j <= n)%nat -> waiting (gps (times j drain w))) ->
  setup_wait (S n) ((gps_time_hour (gps w) =? 0) && (gps_time_minute (gps w) =? 0)) w
  = None.
Proof.
  induction n as [|n IH]; intros w Hall.
  - pose proof (Hall 0%nat ltac:(lia)) as H0. cbn [times] in H0.
    rewrite <- waiting_test in H0. cbn [setup_wait]. rewrite H0. reflexivity.
  - pose proof (Hall 0%nat ltac:(lia)) as H0. cbn [times] in H0.
    rewrite <- waiting_test in H0.
    remember (S n) as m eqn:Em. cbn [setup_wait]. rewrite H0. subst m.
    apply IH. intros j Hj. apply (Hall (S j)). lia.
Qed.

(** * The claims *)

(** C1, as amended.  In one run of [loop] the resync takes place exactly when
    [metricTime mod 125 = 0] and [syncDelta > 5000], where [syncDelta] is the
    difference [millis() - lastSync] of the two 32-bit counters read as a
    signed [long]: then [lastSync] becomes the value [millis()] returns next
    and [syncGPSTime] runs; otherwise the block only consumes its reading of
    [millis()], and [lastSync] stays.  With [e] the time elapsed since
    [lastSync] modulo [2 ^ 32], the signed difference is [e] itself for [e]
    below [2 ^ 31], also across the overflow of the counter, and it is
    [e - 2 ^ 32], which is negative, for [e] from [2 ^ 31] on: then the gate
    stays closed. *)
Theorem resync_gate (w : World) :
  (syncDue w = true <->
     metricTime w mod 125 = 0 /\ syncDelta (next_millis w) (lastSync w) > 5000) /\
  (syncDue w = true ->
     exec loop_sync w =
       exec syncGPSTime
         (set_lastSync (next_millis (exec millis w)) (exec millis (exec millis w))) /\
     lastSync (exec loop_sync w) = next_millis (exec millis w)) /\
  (syncDue w = false ->
     exec loop_sync w = exec millis w /\ lastSync (exec loop_sync w) = lastSync w) /\
  lastSync (exec loop w) =
    (if syncDue (at_sync w) then next_millis (exec millis (at_sync w)) else lastSync w) /\
  (forall e, 0 <= e < 2 ^ 31 -> next_millis w = u32 (lastSync w + e) ->
     syncDelta (next_millis w) (lastSync w) = e) /\
  (forall e, 2 ^ 31 <= e < 2 ^ 32 -> next_millis w = u32 (lastSync w + e) ->
     syncDelta (next_millis w) (lastSync w) = e - 2 ^ 32 /\
     syncDue w = false /\ exec loop_sync w = exec millis w).
Proof.
  assert (Hfire : syncDue w = true ->
            lastSync (exec loop_sync w) = next_millis (exec millis w)).
  { intros Hd. rewrite loop_sync_run, Hd, syncGPSTime_keeps_lastSync. reflexivity. }
  assert (Hidle : syncDue w = false -> lastSync (exec loop_sync w) = lastSync w).
  { intros Hd. rewrite loop_sync_idle by exact Hd. reflexivity. }
  split; [ | split; [ | split; [ | split; [ | split]]]].
  - unfold syncDue. rewrite andb_true_iff, Z.eqb_eq, Z.ltb_lt, rem_zero_iff by lia.
    split; intros [Hm Hd]; (split; [exact Hm | lia]).
  - intros Hd. split; [ | apply Hfire, Hd].
    rewrite loop_sync_run, Hd. reflexivity.
  - intros Hd. split; [apply loop_sync_idle, Hd | apply Hidle, Hd].
  - rewrite loop_run.
    rewrite (loop_real_keeps lastSync) by (intros ? ?; reflexivity).
    unfold at_real.
    rewrite (loop_metric_keeps lastSync) by (intros ? ?; reflexivity).
    unfold at_metric. rewrite loop_sync_run.
    destruct (syncDue (at_sync w)).
    + rewrite syncGPSTime_keeps_lastSync. reflexivity.
    + reflexivity.
  - intros e He Hnow. rewrite Hnow. unfold syncDelta.
    apply (wrapS_elapsed 32); lia.
  - intros e He Hnow.
    assert (Hdelta : syncDelta (next_millis w) (lastSync w) = e - 2 ^ 32).
    { rewrite Hnow. unfold syncDelta, s32.
      rewrite wrapS_u32 by lia. unfold Z.sub at 1.
      rewrite wrapS_u32_add by lia.
      replace (lastSync w + e + - lastSync w) with e by ring.
      apply wrapS_upper; [lia | exact He]. }
    assert (Hdue : syncDue w = false).
    { unfold syncDue. rewrite Hdelta. apply andb_false_iff. right.
      apply Z.ltb_ge. lia. }
    split; [exact Hdelta | split; [exact Hdue | apply loop_sync_idle, Hdue]].
Qed.

(** C2, as amended.  With [metricTime] within the day, [updateLCD] writes the
    five digits of weight [10 ^ 0] to [10 ^ 4] at the columns [DIGITS[5]]
    down to [DIGITS[1]] of row 0, the digit at [DIGITS[i]] being the one of
    weight [10 ^ (5 - i)], and then the real row; on row 0 the cursor never
    goes to [DIGITS[0]], only to the other five columns.  A tick of either
    clock sends these writes for the time it has just set. *)
Theorem refresh_metric_digits (w : World) :
  0 <= metricTime w < 100000 ->
  emitted w (exec updateLCD w) (metricRow (metricTime w) ++ realRow (realTime w)) /\
  (forall col, In (SetCursor col 0) (metricRow (metricTime w) ++ realRow (realTime w)) ->
     In col (tl DIGITS)) /\
  (forall i, (1 <= i <= 5)%nat ->
     In (SetCursor (nth i DIGITS 0) 0) (metricRow (metricTime w))) /\
  emitted w (exec (updateMetricTime true) w)
    (metricRow (metricTime (exec (updateMetricTime true) w)) ++ realRow (realTime w)) /\
  emitted w (exec (updateRealTime true) w)
    (metricRow (metricTime w) ++ realRow (realTime (exec (updateRealTime true) w))).
Proof.
  intros Hmt. split; [ | split; [ | split; [ | split]]].
  - rewrite <- metricRow_code by lia. apply updateLCD_log.
  - intros col Hin. apply in_app_or in Hin as [Hin | Hin].
    + apply (metricRow_columns _ _ _ Hin).
    + apply realRow_row in Hin. discriminate Hin.
  - intros i Hi. unfold metricRow, metricDigit. cbn [flat_map app].
    assert (Hc : i = 1%nat \/ i = 2%nat \/ i = 3%nat \/ i = 4%nat \/ i = 5%nat) by lia.
    destruct Hc as [-> | [-> | [-> | [-> | ->]]]]; simpl; auto 12.
  - set (w2 := set_metricTime (Z.rem (s32 (metricTime w + 1)) 100000)
                 (set_metricTime (s32 (metricTime w + 1)) w)).
    assert (Hrun : exec (updateMetricTime true) w = exec updateLCD w2)
      by (unfold updateMetricTime; exec_steps; reflexivity).
    assert (Hnew : 0 <= metricTime w2)
      by (change (0 <= Z.rem (s32 (metricTime w + 1)) 100000);
          rewrite tick_rollover by lia; apply Z.mod_pos_bound; lia).
    rewrite Hrun, (updateLCD_keeps metricTime) by (intros ? ?; reflexivity).
    rewrite <- metricRow_code by exact Hnew. exact (updateLCD_log w2).
  - set (w2 := set_realTime (Z.rem (s32 (realTime w + 1)) 86400)
                 (set_realTime (s32 (realTime w + 1)) w)).
    assert (Hrun : exec (updateRealTime true) w = exec updateLCD w2)
      by (unfold updateRealTime; exec_steps; reflexivity).
    rewrite Hrun, (updateLCD_keeps realTime) by (intros ? ?; reflexivity).
    rewrite <- metricRow_code by lia. exact (updateLCD_log w2).
Qed.

(** C3.  A resync that reads the local time [h:m:s], with [h] in 0..23 and
    [m] and [s] in 0..59, sets [realTime] to [h * 3600 + m * 60 + s] and
    [metricTime] to [realTime * 1000 / 864 mod 100000]: 86399 and 99998 for
    23:59:59, 0 and 0 for 0:00:00. *)
Theorem resync_sets_times (w : World) (h m s : Z) :
  hour (local_time (exec getGPSTime w)) = h ->
  minute (local_time (exec getGPSTime w)) = m ->
  second (local_time (exec getGPSTime w)) = s ->
  0 <= h <= 23 -> 0 <= m <= 59 -> 0 <= s <= 59 ->
  realTime (exec syncGPSTime w) = h * 3600 + m * 60 + s /\
  metricTime (exec syncGPSTime w) = (realTime (exec syncGPSTime w) * 1000 / 864) mod 100000 /\
  (h = 23 -> m = 59 -> s = 59 ->
     realTime (exec syncGPSTime w) = 86399 /\ metricTime (exec syncGPSTime w) = 99998) /\
  (h = 0 -> m = 0 -> s = 0 ->
     realTime (exec syncGPSTime w) = 0 /\ metricTime (exec syncGPSTime w) = 0).
Proof.
  intros Eh Em Es Hh Hm Hs.
  destruct (resync_values w h m s Eh Em Es Hh Hm Hs) as [Hrt Hmt].
  split; [exact Hrt | split; [rewrite Hrt; exact Hmt | split]];
    intros -> -> ->; rewrite Hrt, Hmt; split; reflexivity.
Qed.

(** C4, as amended.  The schedule has a fixed rate: a tick that fires moves
    its deadline by 864 ms (metric) or 1000 ms (real) from the deadline, not
    from the sample of [millis()], whatever that sample is.  Over [n] runs of
    [loop] without a resync, in which [k] metric ticks and [k'] real ticks
    were serviced, the deadlines are [(initial + k * 864) mod 2 ^ 32] and
    [(initial + k' * 1000) mod 2 ^ 32], the deadlines being [unsigned long];
    they are [initial + k * interval] itself as long as that sum is below
    [2 ^ 32]. *)
Theorem fixed_rate_schedule (n : nat) (w : World) :
  resyncs n w = 0%nat -> well_typed w ->
  (metricDue w = true ->
     nextMetricTick (exec loop_metric w) = u32 (nextMetricTick w + 864)) /\
  (realDue w = true ->
     nextRealTick (exec loop_real w) = u32 (nextRealTick w + 1000)) /\
  nextMetricTick (times n loop w) =
    u32 (nextMetricTick w + Z.of_nat (metricTicks n w) * 864) /\
  nextRealTick (times n loop w) =
    u32 (nextRealTick w + Z.of_nat (realTicks n w) * 1000) /\
  (nextMetricTick w + Z.of_nat (metricTicks n w) * 864 < 2 ^ 32 ->
     nextMetricTick (times n loop w) =
       nextMetricTick w + Z.of_nat (metricTicks n w) * 864) /\
  (nextRealTick w + Z.of_nat (realTicks n w) * 1000 < 2 ^ 32 ->
     nextRealTick (times n loop w) =
       nextRealTick w + Z.of_nat (realTicks n w) * 1000).
Proof.
  intros Hs (Hm & Hr & _).
  destruct (schedule n w Hs Hm Hr) as [Em Er].
  rewrite (Z.mul_comm 864) in Em. rewrite (Z.mul_comm 1000) in Er.
  split; [ | split; [ | split; [ | split; [ | split]]]].
  - intros Hd. rewrite loop_metric_deadline, Hd. reflexivity.
  - intros Hd. rewrite loop_real_deadline, Hd. reflexivity.
  - exact Em.
  - exact Er.
  - intros Hlt. rewrite Em. apply u32_small. lia.
  - intros Hlt. rewrite Er. apply u32_small. lia.
Qed.

(** C5, as amended.  A tick is due when the difference [millis() - next] of
    the two 32-bit counters, read as an [int], is not negative.  When
    [millis()] is [d] ms away from the deadline, before or after it, with [d]
    in the range of [int], the block of [loop] services the tick exactly when
    [0 <= d], also when the counter has gone over its maximum between the
    deadline and the sample: then the deadline moves on by the interval and
    the counter of the clock is ticked; otherwise the block only reads
    [millis()]. *)
Theorem due_across_wraparound (w : World) (d : Z) :
  - 2 ^ (int_bits - 1) <= d < 2 ^ (int_bits - 1) ->
  (next_millis w = u32 (nextMetricTick w + d) ->
     (metricDue w = true <-> 0 <= d) /\
     exec loop_metric w =
       (if 0 <=? d
        then exec (updateMetricTime true)
               (set_nextMetricTick (u32 (nextMetricTick w + 864)) (exec millis w))
        else exec millis w) /\
     nextMetricTick (exec loop_metric w) =
       (if 0 <=? d then u32 (nextMetricTick w + 864) else nextMetricTick w) /\
     metricTime (exec loop_metric w) =
       (if 0 <=? d then Z.rem (s32 (metricTime w + 1)) 100000 else metricTime w)) /\
  (next_millis w = u32 (nextRealTick w + d) ->
     (realDue w = true <-> 0 <= d) /\
     exec loop_real w =
       (if 0 <=? d
        then exec (updateRealTime true)
               (set_nextRealTick (u32 (nextRealTick w + 1000)) (exec millis w))
        else exec millis w) /\
     nextRealTick (exec loop_real w) =
       (if 0 <=? d then u32 (nextRealTick w + 1000) else nextRealTick w) /\
     realTime (exec loop_real w) =
       (if 0 <=? d then Z.rem (s32 (realTime w + 1)) 86400 else realTime w)).
Proof.
  intros Hd. pose proof int_bits_range as Hb.
  split; intros Hnow.
  - assert (Hdue : metricDue w = (0 <=? d))
      by (unfold metricDue, tickDelta, sInt; rewrite Hnow, wrapS_elapsed by lia;
          reflexivity).
    split; [rewrite Hdue; apply Z.leb_le | ].
    rewrite loop_metric_deadline, loop_metric_run, Hdue.
    split; [reflexivity | split; [reflexivity | ]].
    destruct (0 <=? d); [ | reflexivity].
    rewrite updateMetricTime_metricTime. reflexivity.
  - assert (Hdue : realDue w = (0 <=? d))
      by (unfold realDue, tickDelta, sInt; rewrite Hnow, wrapS_elapsed by lia;
          reflexivity).
    split; [rewrite Hdue; apply Z.leb_le | ].
    rewrite loop_real_deadline, loop_real_run, Hdue.
    split; [reflexivity | split; [reflexivity | ]].
    destruct (0 <=? d); [ | reflexivity].
    rewrite updateRealTime_realTime. reflexivity.
Qed.

(** C6.  After [n] ticks from zero the real clock reads [n mod 86400] and
    the metric clock reads [n mod 100000]. *)
Theorem tick_counts (n : nat) (doUpdate : bool) (w : World) :
  (realTime w = 0 ->
     realTime (times n (updateRealTime doUpdate) w) = Z.of_nat n mod 86400) /\
  (metricTime w = 0 ->
     metricTime (times n (updateMetricTime doUpdate) w) = Z.of_nat n mod 100000).
Proof.
  split; intros H0.
  - rewrite real_ticks by lia. rewrite H0. reflexivity.
  - rewrite metric_ticks by lia. rewrite H0. reflexivity.
Qed.

(** C7.  With both counters within the day, they are within the day after a
    tick of either clock, a tick from the last value of the day giving 0;
    and they are within the day after a resync that reads a local time with
    hour in 0..23 and minute and second in 0..59. *)
Theorem range_invariant (w : World) (doUpdate : bool) :
  in_range w ->
  in_range (exec (updateRealTime doUpdate) w) /\
  in_range (exec (updateMetricTime doUpdate) w) /\
  (realTime w = 86399 -> realTime (exec (updateRealTime doUpdate) w) = 0) /\
  (metricTime w = 99999 -> metricTime (exec (updateMetricTime doUpdate) w) = 0) /\
  (0 <= hour (local_time (exec getGPSTime w)) <= 23 ->
   0 <= minute (local_time (exec getGPSTime w)) <= 59 ->
   0 <= second (local_time (exec getGPSTime w)) <= 59 ->
   in_range (exec syncGPSTime w)).
Proof.
  intros [Hr Hm].
  assert (Er : realTime (exec (updateRealTime doUpdate) w) = (realTime w + 1) mod 86400)
    by (rewrite updateRealTime_realTime; apply tick_rollover; lia).
  assert (Em : metricTime (exec (updateMetricTime doUpdate) w)
               = (metricTime w + 1) mod 100000)
    by (rewrite updateMetricTime_metricTime; apply tick_rollover; lia).
  split; [ | split; [ | split; [ | split]]].
  - split.
    + rewrite Er. apply Z.mod_pos_bound. lia.
    + rewrite (updateRealTime_keeps metricTime) by (intros ? ?; reflexivity).
      exact Hm.
  - split.
    + rewrite (updateMetricTime_keeps realTime) by (intros ? ?; reflexivity).
      exact Hr.
    + rewrite Em. apply Z.mod_pos_bound. lia.
  - intros Hlast. rewrite Er, Hlast. reflexivity.
  - intros Hlast. rewrite Em, Hlast. reflexivity.
  - intros Hh Hmi Hs.
    destruct (resync_values w _ _ _ eq_refl eq_refl eq_refl Hh Hmi Hs) as [Ert Emt].
    split.
    + rewrite Ert. lia.
    + rewrite Emt. apply Z.mod_pos_bound. lia.
Qed.

(** C8, as amended.  The wait of [setup] ends only on a receiver whose time
    is valid and has an hour or a minute other than zero; the second is not
    looked at.  The loop body runs at least once; from then on the wait goes
    on as long as the drained receiver is not valid or reads 00:00, and it
    ends, with fuel enough, at the first drained state that is valid and
    does not read 00:00, from where [setup] goes on to the first resync. *)
Theorem acquisition_exit (w : World) :
  (forall fuel w', setup_wait fuel true w = Some w' ->
     gps_time_isValid (gps w') = true /\
     ~ (gps_time_hour (gps w') = 0 /\ gps_time_minute (gps w') = 0)) /\
  (forall k fuel, (1 <= k < fuel)%nat ->
     (forall j, (1 <= j < k)%nat -> waiting (gps (times j drain w))) ->
     gps_time_isValid (gps (times k drain w)) = true ->
     ~ (gps_time_hour (gps (times k drain w)) = 0 /\
        gps_time_minute (gps (times k drain w)) = 0) ->
     setup_wait fuel true w = Some (times k drain w)) /\
  (forall n, (forall j, (1 <= j <= n)%nat -> waiting (gps (times j drain w))) ->
     setup_wait (S n) true w = None) /\
  (forall fuel w0 w', w = exec setup_begin w0 -> setup_wait fuel true w = Some w' ->
     setup fuel w0 = Some (exec setup_finish w')).
Proof.
  split; [ | split; [ | split]].
  - intros fuel w' Hrun. apply not_waiting.
    apply (setup_wait_sound fuel true w w'); [discriminate | exact Hrun].
  - intros k fuel Hk Hbefore Hv Hhm.
    apply setup_wait_first; [lia | exact Hbefore | | lia].
    apply not_waiting. split; assumption.
  - intros n Hall. destruct n as [|n].
    + cbn [setup_wait]. rewrite orb_true_r. reflexivity.
    + remember (S n) as m eqn:Em. cbn [setup_wait]. rewrite orb_true_r. subst m.
      apply setup_wait_on. intros j Hj. apply (Hall (S j)). lia.
  - intros fuel w0 w' -> Hrun. unfold setup. rewrite Hrun. reflexivity.
Qed.

(** C10.  [updateLCD] changes nothing but the display: the two counters, the
    two deadlines and [lastSync] are as before, as is the rest of the world,
    and what it sends to the display are cursor positions and prints only. *)
Theorem updateLCD_reads_only (w : World) :
  realTime (exec updateLCD w) = realTime w /\
  metricTime (exec updateLCD w) = metricTime w /\
  nextMetricTick (exec updateLCD w) = nextMetricTick w /\
  nextRealTick (exec updateLCD w) = nextRealTick w /\
  lastSync (exec updateLCD w) = lastSync w /\
  exec updateLCD w = set_lcd (lcd (exec updateLCD w)) w /\
  exists ops, emitted w (exec updateLCD w) ops /\ forallb isWrite ops = true.
Proof.
  repeat (split; [apply updateLCD_keeps; intros ? ?; reflexivity | ]).
  split; [apply updateLCD_world | ].
  eexists. split; [apply updateLCD_log | ].
  rewrite forallb_app, realRow_writes. reflexivity.
Qed.

(** * Further properties of the sketch *)

(** ** The refresh *)

Lemma times_keeps {A} (f : World -> A) (m : M unit) :
  keeps f m -> forall n w, f (times n m w) = f w.
Proof.
  intros Hm n. induction n as [|n IH]; intros w.
  - reflexivity.
  - cbn [times]. rewrite IH. apply Hm.
Qed.

Lemma setRealTime_keeps_lcd : keeps lcd setRealTime.
Proof. intros w. reflexivity. Qed.

Lemma setMetricTime_keeps_lcd : keeps lcd setMetricTime.
Proof. intros w. reflexivity. Qed.

(** The five decimal digits of a number make up the number modulo 10 ^ 5. *)
Lemma five_digits n :
  0 <= n ->
  digit n 0 + 10 * digit n 1 + 100 * digit n 2 + 1000 * digit n 3 + 10000 * digit n 4
  = n mod 100000.
Proof.
  intros Hn. unfold digit.
  change (10 ^ Z.of_nat 0) with 1. change (10 ^ Z.of_nat 1) with 10.
  change (10 ^ Z.of_nat 2) with 100. change (10 ^ Z.of_nat 3) with 1000.
  change (10 ^ Z.of_nat 4) with 10000.
  Z.to_euclidean_division_equations. lia.
Qed.

Lemma digit_range n k : 0 <= digit n k <= 9.
Proof.
  unfold digit. pose proof (Z.mod_pos_bound (n / 10 ^ Z.of_nat k) 10 ltac:(lia)). lia.
Qed.

(** The fields of the real row for a second of the day. *)
Lemma realRow_fields rt :
  0 <= rt < 86400 ->
  realRow rt =
    twoDigits 8 (rt / 3600) ++ twoDigits 11 (rt mod 3600 / 60) ++ twoDigits 14 (rt mod 60).
Proof.
  intros Hrt. unfold realRow.
  rewrite (rem_nonneg rt 3600), (quot_nonneg rt 3600) by lia.
  assert (H1 : 0 <= rt mod 3600 < 3600) by (apply Z.mod_pos_bound; lia).
  rewrite (rem_nonneg (rt mod 3600) 60), (quot_nonneg (rt mod 3600) 60) by lia.
  assert (H2 : (rt mod 3600) mod 60 = rt mod 60).
  { Z.to_euclidean_division_equations. lia. }
  rewrite H2.
  rewrite !sInt_small; [reflexivity | | | ];
    change (2 ^ 15) with 32768; Z.to_euclidean_division_equations; lia.
Qed.

(** X1.  With a [metricTime] that is not negative, the five digits that
    [updateLCD] prints on row 0, taken with their weights, make up
    [metricTime mod 100000]: within the day the metric row shows the whole
    value, and each print is a single digit. *)
Theorem metric_row_round_trip (w : World) :
  0 <= metricTime w ->
  exists d0 d1 d2 d3 d4,
    emitted w (exec updateLCD w)
      ([SetCursor 15 0; PrintNum d0; SetCursor 14 0; PrintNum d1;
        SetCursor 12 0; PrintNum d2; SetCursor 11 0; PrintNum d3;
        SetCursor 9 0; PrintNum d4] ++ realRow (realTime w)) /\
    (0 <= d0 <= 9 /\ 0 <= d1 <= 9 /\ 0 <= d2 <= 9 /\ 0 <= d3 <= 9 /\ 0 <= d4 <= 9) /\
    d0 + 10 * d1 + 100 * d2 + 1000 * d3 + 10000 * d4 = metricTime w mod 100000.
Proof.
  intros Hmt.
  exists (digit (metricTime w) 0), (digit (metricTime w) 1), (digit (metricTime w) 2),
    (digit (metricTime w) 3), (digit (metricTime w) 4).
  split; [ | split].
  - pose proof (updateLCD_log w) as Hlog.
    rewrite (metricRow_code (metricTime w) Hmt) in Hlog. exact Hlog.
  - repeat split; apply digit_range.
  - apply five_digits, Hmt.
Qed.

(** X2.  With [realTime] within the day, the real row that [updateLCD]
    writes holds the hour at column 8, the minute at column 11 and the second
    at column 14, each with a zero in front when below ten; the three values
    are within 0..23, 0..59 and 0..59 and make up [realTime]. *)
Theorem real_row_fields (w : World) :
  0 <= realTime w < 86400 -> 0 <= metricTime w ->
  exists hh mm ss,
    emitted w (exec updateLCD w)
      (metricRow (metricTime w) ++
       twoDigits 8 hh ++ twoDigits 11 mm ++ twoDigits 14 ss) /\
    0 <= hh <= 23 /\ 0 <= mm <= 59 /\ 0 <= ss <= 59 /\
    hh * 3600 + mm * 60 + ss = realTime w.
Proof.
  intros Hrt Hmt.
  exists (realTime w / 3600), (realTime w mod 3600 / 60), (realTime w mod 60).
  split.
  - pose proof (updateLCD_log w) as Hlog.
    rewrite (metricRow_code (metricTime w) Hmt), realRow_fields in Hlog by exact Hrt.
    exact Hlog.
  - Z.to_euclidean_division_equations. lia.
Qed.

(** X3.  A resync that reads the local time [h:m:s] shows it: the refresh at
    its end writes the digits of the converted metric time on row 0 and [h],
    [m] and [s] in the three fields of row 1, and nothing else goes to the
    display. *)
Theorem resync_shows_local_time (w : World) (h m s : Z) :
  hour (local_time (exec getGPSTime w)) = h ->
  minute (local_time (exec getGPSTime w)) = m ->
  second (local_time (exec getGPSTime w)) = s ->
  0 <= h <= 23 -> 0 <= m <= 59 -> 0 <= s <= 59 ->
  emitted w (exec syncGPSTime w)
    (metricRow (((h * 3600 + m * 60 + s) * 1000 / 864) mod 100000) ++
     twoDigits 8 h ++ twoDigits 11 m ++ twoDigits 14 s).
Proof.
  intros Eh Em Es Hh Hm Hs.
  destruct (resync_values w h m s Eh Em Es Hh Hm Hs) as [Hrt Hmt].
  set (w3 := exec setMetricTime (exec setRealTime (exec getGPSTime w))).
  assert (Hrun : exec syncGPSTime w = exec updateLCD w3) by apply syncGPSTime_run.
  assert (Hrt3 : realTime w3 = h * 3600 + m * 60 + s).
  { rewrite <- Hrt, Hrun.
    symmetry. apply updateLCD_keeps. intros ? ?; reflexivity. }
  assert (Hmt3 : metricTime w3 = ((h * 3600 + m * 60 + s) * 1000 / 864) mod 100000).
  { rewrite <- Hmt, Hrun.
    symmetry. apply updateLCD_keeps. intros ? ?; reflexivity. }
  assert (Hlcd : lcd w3 = lcd w).
  { unfold w3. rewrite setMetricTime_keeps_lcd, setRealTime_keeps_lcd.
    apply getGPSTime_keeps. intros ? ?; reflexivity. }
  pose proof (updateLCD_log w3) as Hlog. unfold emitted in *.
  rewrite Hrun, Hlog, Hlcd, Hmt3, Hrt3.
  rewrite metricRow_code by (apply Z.mod_pos_bound; lia).
  rewrite realRow_fields by lia.
  replace ((h * 3600 + m * 60 + s) / 3600) with h
    by (Z.to_euclidean_division_equations; lia).
  replace ((h * 3600 + m * 60 + s) mod 3600 / 60) with m
    by (Z.to_euclidean_division_equations; lia).
  replace ((h * 3600 + m * 60 + s) mod 60) with s
    by (Z.to_euclidean_division_equations; lia).
  reflexivity.
Qed.

(** ** The conversion and the alignment *)

(** X4.  [setMetricTime] sets [metricTime] to the number of whole lakhs in
    [realTime] seconds: with [realTime] within the day the result is within
    the day, [metricTime * 864 <= realTime * 1000 < (metricTime + 1) * 864],
    and at a multiple of 108 seconds the conversion is exact and gives a
    multiple of 125 lakhs.  [realTime] itself is kept. *)
Theorem conversion_whole_lakhs (w : World) :
  0 <= realTime w < 86400 ->
  0 <= metricTime (exec setMetricTime w) < 100000 /\
  metricTime (exec setMetricTime w) * 864 <= realTime w * 1000
    < (metricTime (exec setMetricTime w) + 1) * 864 /\
  (realTime w mod 108 = 0 ->
     metricTime (exec setMetricTime w) * 864 = realTime w * 1000 /\
     metricTime (exec setMetricTime w) mod 125 = 0) /\
  realTime (exec setMetricTime w) = realTime w.
Proof.
  intros Hrt. rewrite setMetricTime_metricTime, lakhs_of_day by exact Hrt.
  assert (Hlt : 0 <= realTime w * 1000 / 864 < 100000)
    by (Z.to_euclidean_division_equations; lia).
  rewrite (Z.mod_small _ _ Hlt).
  split; [exact Hlt | split; [ | split; [ | reflexivity]]].
  - Z.to_euclidean_division_equations. lia.
  - intros Hal. Z.to_euclidean_division_equations. lia.
Qed.

(** X5.  Ticks keep the alignment: from [realTime = 108 * q] and
    [metricTime = 125 * q], after [108 * k] real ticks and [125 * k] metric
    ticks the counters are [108 * q'] and [125 * q'] with
    [q' = (q + k) mod 800], so the two clocks agree again, midnight
    included. *)
Theorem ticks_keep_alignment (k : nat) (b b' : bool) (q : Z) (w : World) :
  0 <= q < 800 -> realTime w = 108 * q -> metricTime w = 125 * q ->
  realTime (times (125 * k) (updateMetricTime b') (times (108 * k) (updateRealTime b) w))
    = 108 * ((q + Z.of_nat k) mod 800) /\
  metricTime (times (125 * k) (updateMetricTime b') (times (108 * k) (updateRealTime b) w))
    = 125 * ((q + Z.of_nat k) mod 800).
Proof.
  intros Hq Hr Hm. split.
  - rewrite (times_keeps realTime)
      by (apply updateMetricTime_keeps; intros ? ?; reflexivity).
    rewrite real_ticks by lia. rewrite Hr, Nat2Z.inj_mul.
    change (Z.of_nat 108) with 108.
    replace (108 * q + 108 * Z.of_nat k) with (108 * (q + Z.of_nat k)) by ring.
    change 86400 with (108 * 800). apply Z.mul_mod_distr_l; lia.
  - assert (Hm1 : metricTime (times (108 * k) (updateRealTime b) w) = 125 * q).
    { rewrite (times_keeps metricTime)
        by (apply updateRealTime_keeps; intros ? ?; reflexivity).
      exact Hm. }
    rewrite metric_ticks by lia. rewrite Hm1, Nat2Z.inj_mul.
    change (Z.of_nat 125) with 125.
    replace (125 * q + 125 * Z.of_nat k) with (125 * (q + Z.of_nat k)) by ring.
    change 100000 with (125 * 800). apply Z.mul_mod_distr_l; lia.
Qed.

(** ** The deadlines after a resync *)

Lemma u32_sub a b : u32 (u32 a - u32 b) = u32 (a - b).
Proof. unfold u32, wrapU. symmetry. apply Zminus_mod. Qed.

(** The signed difference between a sample [e] ms and a deadline [i] ms
    after the same counter value. *)
Lemma tickDelta_from t e i :
  - 2 ^ (int_bits - 1) <= e - i < 2 ^ (int_bits - 1) ->
  tickDelta (u32 (t + e)) (u32 (t + i)) = e - i.
Proof.
  intros He. pose proof int_bits_range as Hb.
  unfold tickDelta, sInt. rewrite u32_sub, wrapS_u32 by lia.
  replace (t + e - (t + i)) with (e - i) by ring.
  apply wrapS_small; lia.
Qed.

Lemma syncGPSTime_deadlines w :
  nextRealTick (exec syncGPSTime w) = u32 (next_millis w + 1000) /\
  nextMetricTick (exec syncGPSTime w) = u32 (next_millis (exec millis w) + 864) /\
  ms_reads (exec syncGPSTime w) = S (S (ms_reads w)) /\
  ms_feed (exec syncGPSTime w) = ms_feed w.
Proof.
  rewrite syncGPSTime_run.
  rewrite !(updateLCD_keeps nextRealTick), !(updateLCD_keeps nextMetricTick),
    !(updateLCD_keeps ms_reads), !(updateLCD_keeps ms_feed)
    by (intros ? ?; reflexivity).
  assert (Hr : ms_reads (exec getGPSTime w) = ms_reads w)
    by (apply getGPSTime_keeps; intros ? ?; reflexivity).
  assert (Hf : ms_feed (exec getGPSTime w) = ms_feed w)
    by (apply getGPSTime_keeps; intros ? ?; reflexivity).
  change (nextRealTick (exec setMetricTime (exec setRealTime (exec getGPSTime w))))
    with (u32 (u32 (ms_feed (exec getGPSTime w) (ms_reads (exec getGPSTime w))) + 1000)).
  change (nextMetricTick (exec setMetricTime (exec setRealTime (exec getGPSTime w))))
    with (u32 (u32 (ms_feed (exec getGPSTime w) (S (ms_reads (exec getGPSTime w)))) + 864)).
  change (ms_reads (exec setMetricTime (exec setRealTime (exec getGPSTime w))))
    with (S (S (ms_reads (exec getGPSTime w)))).
  change (ms_feed (exec setMetricTime (exec setRealTime (exec getGPSTime w))))
    with (ms_feed (exec getGPSTime w)).
  rewrite Hr, Hf. repeat split.
Qed.

(** X6.  A resync sets the deadlines anew: [nextRealTick] is 1000 ms after
    the value [setRealTime] reads from [millis()], [nextMetricTick] 864 ms
    after the value [setMetricTime] reads next.  A sample taken [e] ms after
    that reading then finds the tick due exactly when a whole interval has
    gone by ([e >= 864], [e >= 1000]), for [e] within the range of [int]
    around the interval. *)
Theorem resync_rephases (w : World) (e : Z) :
  nextRealTick (exec syncGPSTime w) = u32 (next_millis w + 1000) /\
  nextMetricTick (exec syncGPSTime w) = u32 (next_millis (exec millis w) + 864) /\
  (- 2 ^ (int_bits - 1) <= e - 864 < 2 ^ (int_bits - 1) ->
   next_millis (exec syncGPSTime w) = u32 (next_millis (exec millis w) + e) ->
   (metricDue (exec syncGPSTime w) = true <-> 864 <= e)) /\
  (- 2 ^ (int_bits - 1) <= e - 1000 < 2 ^ (int_bits - 1) ->
   next_millis (exec syncGPSTime w) = u32 (next_millis w + e) ->
   (realDue (exec syncGPSTime w) = true <-> 1000 <= e)).
Proof.
  destruct (syncGPSTime_deadlines w) as (Hr & Hm & _ & _).
  split; [exact Hr | split; [exact Hm | split]].
  - intros He Hnow. unfold metricDue.
    rewrite Hnow, Hm, tickDelta_from by exact He.
    rewrite Z.leb_le. lia.
  - intros He Hnow. unfold realDue.
    rewrite Hnow, Hr, tickDelta_from by exact He.
    rewrite Z.leb_le. lia.
Qed.

(** ** The tick blocks of [loop] *)

(** X7.  A sample that is later than the deadline by more than [int] holds
    is read as early: with the counter [d] ms past the deadline,
    [2 ^ (int_bits - 1) <= d < 2 ^ int_bits], the tick is not due, and the
    block does nothing but read [millis()]. *)
Theorem stall_suppresses_tick (w : World) (d : Z) :
  2 ^ (int_bits - 1) <= d < 2 ^ int_bits ->
  (next_millis w = u32 (nextMetricTick w + d) ->
     metricDue w = false /\ exec loop_metric w = exec millis w) /\
  (next_millis w = u32 (nextRealTick w + d) ->
     realDue w = false /\ exec loop_real w = exec millis w).
Proof.
  intros Hd. pose proof int_bits_range as Hb.
  assert (Hneg : forall next,
            (0 <=? tickDelta (u32 (next + d)) next) = false).
  { intros next. unfold tickDelta, sInt.
    rewrite wrapS_u32 by lia. unfold Z.sub at 1.
    rewrite wrapS_u32_add by lia.
    replace (next + d + - next) with d by ring.
    rewrite wrapS_upper by lia. apply Z.leb_gt. lia. }
  split; intros Hnow.
  - assert (Hdue : metricDue w = false) by (unfold metricDue; rewrite Hnow; apply Hneg).
    split; [exact Hdue | ]. rewrite loop_metric_run, Hdue. reflexivity.
  - assert (Hdue : realDue w = false) by (unfold realDue; rewrite Hnow; apply Hneg).
    split; [exact Hdue | ]. rewrite loop_real_run, Hdue. reflexivity.
Qed.

(** What the tick blocks do to the counters and to the inputs. *)

Lemma loop_metric_effect w :
  0 <= metricTime w < 100000 ->
  metricTime (exec loop_metric w) =
    (if metricDue w then (metricTime w + 1) mod 100000 else metricTime w) /\
  ms_reads (exec loop_metric w) = S (ms_reads w).
Proof.
  intros Hm. rewrite loop_metric_run. destruct (metricDue w).
  - rewrite updateMetricTime_metricTime.
    rewrite (updateMetricTime_keeps ms_reads) by (intros ? ?; reflexivity).
    split; [ | reflexivity].
    change (metricTime (set_nextMetricTick (u32 (nextMetricTick w + 864)) (exec millis w)))
      with (metricTime w).
    apply tick_rollover; lia.
  - split; reflexivity.
Qed.

Lemma loop_real_effect w :
  0 <= realTime w < 86400 ->
  realTime (exec loop_real w) =
    (if realDue w then (realTime w + 1) mod 86400 else realTime w) /\
  ms_reads (exec loop_real w) = S (ms_reads w).
Proof.
  intros Hm. rewrite loop_real_run. destruct (realDue w).
  - rewrite updateRealTime_realTime.
    rewrite (updateRealTime_keeps ms_reads) by (intros ? ?; reflexivity).
    split; [ | reflexivity].
    change (realTime (set_nextRealTick (u32 (nextRealTick w + 1000)) (exec millis w)))
      with (realTime w).
    apply tick_rollover; lia.
  - split; reflexivity.
Qed.

(** The worlds in which the tick blocks start, in a run without resync. *)
Lemma at_metric_idle w :
  syncDue (at_sync w) = false -> at_metric w = exec millis (exec drain w).
Proof. intros Hs. unfold at_metric. apply loop_sync_idle, Hs. Qed.

Lemma at_real_idle w :
  syncDue (at_sync w) = false ->
  realTime (at_real w) = realTime w /\
  nextRealTick (at_real w) = nextRealTick w /\
  ms_reads (at_real w) = S (S (ms_reads w)) /\
  ms_feed (at_real w) = ms_feed w /\
  lastSync (at_real w) = lastSync w /\
  rx_drains (at_real w) = S (rx_drains w).
Proof.
  intros Hs. unfold at_real.
  rewrite !(loop_metric_keeps realTime), !(loop_metric_keeps nextRealTick),
    !(loop_metric_keeps ms_feed), !(loop_metric_keeps lastSync),
    !(loop_metric_keeps rx_drains) by (intros ? ?; reflexivity).
  rewrite loop_metric_run.
  destruct (metricDue (at_metric w));
    rewrite ?(updateMetricTime_keeps ms_reads) by (intros ? ?; reflexivity);
    rewrite (at_metric_idle w Hs); repeat split.
Qed.

(** X8.  One run of [loop] in which no resync takes place advances each
    counter by at most one tick, modulo the day, reads [millis()] three times
    and drains the serial line once; [lastSync] stays. *)
Theorem loop_single_step (w : World) :
  syncDue (at_sync w) = false -> in_range w ->
  metricTime (exec loop w) =
    (if metricDue (at_metric w) then (metricTime w + 1) mod 100000 else metricTime w) /\
  realTime (exec loop w) =
    (if realDue (at_real w) then (realTime w + 1) mod 86400 else realTime w) /\
  ms_reads (exec loop w) = (3 + ms_reads w)%nat /\
  rx_drains (exec loop w) = S (rx_drains w) /\
  lastSync (exec loop w) = lastSync w.
Proof.
  intros Hs [Hr Hm].
  destruct (at_real_idle w Hs) as (Er & _ & Ereads & _ & Elast & Erx).
  assert (Hm' : 0 <= metricTime (at_metric w) < 100000)
    by (rewrite (at_metric_idle w Hs); exact Hm).
  destruct (loop_metric_effect (at_metric w) Hm') as [Emt _].
  assert (Hr' : 0 <= realTime (at_real w) < 86400) by (rewrite Er; exact Hr).
  destruct (loop_real_effect (at_real w) Hr') as [Ert Erd].
  rewrite loop_run.
  rewrite (loop_real_keeps metricTime), (loop_real_keeps rx_drains),
    (loop_real_keeps lastSync) by (intros ? ?; reflexivity).
  split; [ | split; [ | split; [ | split]]].
  - unfold at_real at 1. rewrite Emt, (at_metric_idle w Hs). reflexivity.
  - rewrite Ert, Er. reflexivity.
  - rewrite Erd, Ereads. reflexivity.
  - exact Erx.
  - exact Elast.
Qed.

Lemma u32_shift a b c : u32 (u32 (a + b) + (c - b)) = u32 (a + c).
Proof. rewrite u32_add_l. f_equal. ring. Qed.

(** X9.  A loop that is late catches up, one tick a run: when in each of [k]
    runs without resync the sample of the metric test is at least as many
    intervals past the first deadline as ticks were serviced before (and
    within the range of [int] past the current deadline), every run services
    a metric tick; [metricTime] advances by [k] modulo the day and the
    deadline by [k * 864] modulo [2 ^ 32]. *)
Theorem late_metric_ticks_catch_up (k : nat) : forall (e : nat -> Z) (w : World),
  resyncs k w = 0%nat ->
  0 <= metricTime w < 100000 -> 0 <= nextMetricTick w < 2 ^ 32 ->
  (forall i, (i < k)%nat ->
     u32 (ms_feed w (ms_reads w + 3 * i + 1)) = u32 (nextMetricTick w + e i) /\
     864 * Z.of_nat i <= e i < 864 * Z.of_nat i + 2 ^ (int_bits - 1)) ->
  metricTicks k w = k /\
  metricTime (times k loop w) = (metricTime w + Z.of_nat k) mod 100000 /\
  nextMetricTick (times k loop w) = u32 (nextMetricTick w + 864 * Z.of_nat k).
Proof.
  induction k as [|k IH]; intros e w Hs Hm Hn He.
  - cbn [metricTicks times]. rewrite !Z.add_0_r, Z.mod_small, u32_small by lia.
    repeat split.
  - cbn [resyncs] in Hs. cbn [metricTicks times].
    destruct (syncDue (at_sync w)) eqn:Hsync; [discriminate Hs | ].
    destruct (He 0%nat ltac:(lia)) as [Hnow Hbound].
    assert (Hdue : metricDue (at_metric w) = true).
    { unfold metricDue. rewrite (at_metric_idle w Hsync).
      change (next_millis (exec millis (exec drain w)))
        with (u32 (ms_feed w (S (ms_reads w)))).
      change (nextMetricTick (exec millis (exec drain w))) with (nextMetricTick w).
      replace (S (ms_reads w)) with (ms_reads w + 3 * 0 + 1)%nat by lia.
      rewrite Hnow.
      rewrite <- (u32_small (nextMetricTick w)) at 2 by exact Hn.
      rewrite <- (Z.add_0_r (nextMetricTick w)) at 2.
      rewrite tickDelta_from by lia. apply Z.leb_le. lia. }
    assert (Hin : 0 <= metricTime (at_metric w) < 100000)
      by (rewrite (at_metric_idle w Hsync); exact Hm).
    destruct (loop_deadlines w Hsync) as [Edl _]. rewrite Hdue in Edl.
    assert (Emt : metricTime (exec loop w) = (metricTime w + 1) mod 100000).
    { rewrite loop_run.
      rewrite (loop_real_keeps metricTime) by (intros ? ?; reflexivity).
      unfold at_real. destruct (loop_metric_effect (at_metric w) Hin) as [E _].
      rewrite E, Hdue, (at_metric_idle w Hsync). reflexivity. }
    assert (Ereads : ms_reads (exec loop w) = (3 + ms_reads w)%nat).
    { rewrite loop_run.
      destruct (at_real_idle w Hsync) as (_ & _ & Erd & _).
      rewrite loop_real_run.
      destruct (realDue (at_real w));
        rewrite ?(updateRealTime_keeps ms_reads) by (intros ? ?; reflexivity);
        change (ms_reads (exec millis (at_real w))) with (S (ms_reads (at_real w)));
        cbn [ms_reads set_nextRealTick]; rewrite ?Erd; try reflexivity.
      change (S (ms_reads (at_real w)) = (3 + ms_reads w)%nat).
      rewrite Erd. reflexivity. }
    assert (Efeed : ms_feed (exec loop w) = ms_feed w).
    { rewrite loop_run.
      rewrite (loop_real_keeps ms_feed) by (intros ? ?; reflexivity).
      apply (at_real_idle w Hsync). }
    destruct (IH (fun i => e (S i) - 864) (exec loop w)) as (Ek & Et & Ed).
    + exact Hs.
    + rewrite Emt. apply Z.mod_pos_bound. lia.
    + rewrite Edl. apply u32_range.
    + intros i Hi. destruct (He (S i) ltac:(lia)) as [Hnow' Hb'].
      rewrite Efeed, Ereads, Edl. split.
      * replace (3 + ms_reads w + 3 * i + 1)%nat with (ms_reads w + 3 * S i + 1)%nat by lia.
        rewrite Hnow'. symmetry. apply u32_shift.
      * rewrite Nat2Z.inj_succ in Hb'. lia.
    + rewrite Hdue, Ek, Et, Ed, Emt, Edl. split; [reflexivity | split].
      * rewrite Zplus_mod_idemp_l. f_equal. lia.
      * rewrite u32_add_l. f_equal. lia.
Qed.

(** X10.  The same for the real clock, whose test takes the third sample of
    a run: in [k] late runs without resync every run services a real tick;
    [realTime] advances by [k] modulo the day and the deadline by
    [k * 1000] modulo [2 ^ 32]. *)
Theorem late_real_ticks_catch_up (k : nat) : forall (e : nat -> Z) (w : World),
  resyncs k w = 0%nat ->
  0 <= realTime w < 86400 -> 0 <= nextRealTick w < 2 ^ 32 ->
  (forall i, (i < k)%nat ->
     u32 (ms_feed w (ms_reads w + 3 * i + 2)) = u32 (nextRealTick w + e i) /\
     1000 * Z.of_nat i <= e i < 1000 * Z.of_nat i + 2 ^ (int_bits - 1)) ->
  realTicks k w = k /\
  realTime (times k loop w) = (realTime w + Z.of_nat k) mod 86400 /\
  nextRealTick (times k loop w) = u32 (nextRealTick w + 1000 * Z.of_nat k).
Proof.
  induction k as [|k IH]; intros e w Hs Hm Hn He.
  - cbn [realTicks times]. rewrite !Z.add_0_r, Z.mod_small, u32_small by lia.
    repeat split.
  - cbn [resyncs] in Hs. cbn [realTicks times].
    destruct (syncDue (at_sync w)) eqn:Hsync; [discriminate Hs | ].
    destruct (He 0%nat ltac:(lia)) as [Hnow Hbound].
    destruct (at_real_idle w Hsync) as (Er & En & Erd & Ef & _).
    assert (Hdue : realDue (at_real w) = true).
    { unfold realDue, next_millis. rewrite En, Erd, Ef.
      replace (S (S (ms_reads w))) with (ms_reads w + 3 * 0 + 2)%nat by lia.
      rewrite Hnow.
      rewrite <- (u32_small (nextRealTick w)) at 2 by exact Hn.
      rewrite <- (Z.add_0_r (nextRealTick w)) at 2.
      rewrite tickDelta_from by lia. apply Z.leb_le. lia. }
    assert (Hin : 0 <= realTime (at_real w) < 86400) by (rewrite Er; exact Hm).
    destruct (loop_deadlines w Hsync) as [_ Edl]. rewrite Hdue in Edl.
    destruct (loop_real_effect (at_real w) Hin) as [Ert Ereads'].
    assert (Emt : realTime (exec loop w) = (realTime w + 1) mod 86400)
      by (rewrite loop_run, Ert, Hdue, Er; reflexivity).
    assert (Ereads : ms_reads (exec loop w) = (3 + ms_reads w)%nat)
      by (rewrite loop_run, Ereads', Erd; reflexivity).
    assert (Efeed : ms_feed (exec loop w) = ms_feed w).
    { rewrite loop_run.
      rewrite (loop_real_keeps ms_feed) by (intros ? ?; reflexivity).
      exact Ef. }
    destruct (IH (fun i => e (S i) - 1000) (exec loop w)) as (Ek & Et & Ed).
    + exact Hs.
    + rewrite Emt. apply Z.mod_pos_bound. lia.
    + rewrite Edl. apply u32_range.
    + intros i Hi. destruct (He (S i) ltac:(lia)) as [Hnow' Hb'].
      rewrite Efeed, Ereads, Edl. split.
      * replace (3 + ms_reads w + 3 * i + 2)%nat with (ms_reads w + 3 * S i + 2)%nat by lia.
        rewrite Hnow'. symmetry. apply u32_shift.
      * rewrite Nat2Z.inj_succ in Hb'. lia.
    + rewrite Hdue, Ek, Et, Ed, Emt, Edl. split; [reflexivity | split].
      * rewrite Zplus_mod_idemp_l. f_equal. lia.
      * rewrite u32_add_l. f_equal. lia.
Qed.

(** ** The serial line and [setup] *)

Lemma exec_drain w :
  exec drain w =
  set_rx_drains (S (rx_drains w))
    (set_gps (fold_left gps_encode (rx_feed w (rx_drains w)) (gps w)) w).
Proof. reflexivity. Qed.

Lemma drain_keeps {A} (f : World -> A) :
  (forall v w, f (set_gps v w) = f w) -> (forall v w, f (set_rx_drains v w) = f w) ->
  keeps f drain.
Proof. intros Hg Hr w. rewrite exec_drain, Hr. apply Hg. Qed.

Lemma times_drain (n : nat) : forall w : World,
  gps (times n drain w) =
    fold_left gps_encode
      (List.concat (map (fun i => rx_feed w (rx_drains w + i)%nat) (seq 0 n))) (gps w) /\
  times n drain w =
    set_rx_drains (rx_drains w + n) (set_gps (gps (times n drain w)) w).
Proof.
  induction n as [|n IH]; intros w.
  - cbn [times seq map List.concat fold_left]. split; [reflexivity | ].
    rewrite Nat.add_0_r. destruct w; reflexivity.
  - cbn [times]. destruct (IH (exec drain w)) as [Eg Ew]. split.
    + rewrite Eg. cbn [seq map List.concat]. rewrite fold_left_app, Nat.add_0_r.
      rewrite <- seq_shift, map_map. rewrite exec_drain.
      cbn [gps rx_feed rx_drains set_rx_drains set_gps].
      f_equal. f_equal. apply map_ext. intros i. f_equal. lia.
    + rewrite Ew at 1. rewrite exec_drain.
      cbn [gps rx_feed rx_drains set_rx_drains set_gps ms_feed ms_reads lcd clk
           metricTime realTime nextMetricTick nextRealTick lastSync].
      unfold set_rx_drains, set_gps.
      cbn [gps rx_feed rx_drains ms_feed ms_reads lcd clk
           metricTime realTime nextMetricTick nextRealTick lastSync].
      f_equal. lia.
Qed.

(** X11.  The bytes reach the receiver in the order of their arrival, each
    once, however they are spread over the drainings: after [n] drainings
    the receiver is the one that was fed the [n] batches one after the other,
    and nothing else of the world has changed but the count of drainings. *)
Theorem drains_feed_in_order (n : nat) (w : World) :
  gps (times n drain w) =
    fold_left gps_encode
      (List.concat (map (fun i => rx_feed w (rx_drains w + i)%nat) (seq 0 n))) (gps w) /\
  times n drain w =
    set_rx_drains (rx_drains w + n) (set_gps (gps (times n drain w)) w).
Proof. apply times_drain. Qed.

(** The wait ends after some drainings, at least one when it starts with the
    flag set. *)
Lemma setup_wait_drains fuel : forall b w w',
  setup_wait fuel b w = Some w' ->
  exists n, (n < fuel)%nat /\ (b = true -> (1 <= n)%nat) /\ w' = times n drain w.
Proof.
  induction fuel as [|fuel IH]; intros b w w' Hrun; cbn [setup_wait] in Hrun.
  - discriminate.
  - destruct (negb (gps_time_isValid (gps w)) || b) eqn:Hc.
    + apply IH in Hrun as (n & Hn & _ & ->).
      exists (S n). split; [lia | split; [intros _; lia | reflexivity]].
    + injection Hrun as <-. exists 0%nat.
      apply orb_false_iff in Hc as [_ ->].
      split; [lia | split; [discriminate | reflexivity]].
Qed.

Lemma exec_lcd_do op w : exec (lcd_do op) w = set_lcd (op :: lcd w) w.
Proof. reflexivity. Qed.

Lemma exec_lcd_do_set op v w :
  exec (lcd_do op) (set_lcd v w) = set_lcd (op :: v) w.
Proof. reflexivity. Qed.

(** What goes to the display before and after the wait. *)
Lemma setup_begin_run w :
  exec setup_begin w =
  set_lcd (rev [LcdInit; LcdClear; LcdBacklight; SetCursor 1 0;
                PrintStr "Acquiring Time"; SetCursor 2 0; PrintStr "Please Wait"]
           ++ lcd w) w.
Proof. unfold setup_begin. rewrite !exec_bind, !exec_lcd_do. destruct w; reflexivity. Qed.

Lemma setup_finish_run w :
  exec setup_finish w =
  exec syncGPSTime
    (set_lcd (rev [LcdClear; SetCursor 0 0; PrintStr "Metric:";
                   SetCursor 13 0; PrintChar DELIMETER;
                   SetCursor 10 0; PrintChar DELIMETER;
                   SetCursor 0 1; PrintStr "Actual:";
                   SetCursor 13 1; PrintChar DELIMETER;
                   SetCursor 10 1; PrintChar DELIMETER] ++ lcd w) w).
Proof.
  unfold setup_finish.
  repeat (rewrite ?exec_bind, ?exec_lcd_do_set, ?exec_lcd_do, ?for_down_1_255, ?exec_ret;
          cbv beta).
  apply f_equal. reflexivity.
Qed.

Lemma syncGPSTime_keeps {A} (f : World -> A) :
  lcd_blind f -> (forall v w, f (set_clk v w) = f w) ->
  (forall v w, f (set_realTime v w) = f w) -> (forall v w, f (set_metricTime v w) = f w) ->
  (forall v w, f (set_nextRealTick v w) = f w) ->
  (forall v w, f (set_nextMetricTick v w) = f w) ->
  (forall v w, f (set_ms_reads v w) = f w) ->
  keeps f syncGPSTime.
Proof.
  intros Hl Hc Hr Hm Hnr Hnm Hms w. rewrite syncGPSTime_run.
  rewrite (updateLCD_keeps f Hl).
  unfold setMetricTime. exec_steps. rewrite exec_millis, Hnm, Hms, !Hm.
  unfold setRealTime. exec_steps. rewrite exec_millis, Hnr, Hms, !Hr.
  unfold exec at 1. cbn [snd]. rewrite Hc.
  apply (getGPSTime_keeps f Hc).
Qed.

(** X12.  When [setup] returns, the serial line was drained at least once
    and the receiver is the one these drainings left: its time is valid with
    an hour or a minute other than zero; [lastSync] is as it was; and with
    [realTime] within the day the two counters agree, [metricTime] being the
    whole lakhs in [realTime] seconds. *)
Theorem setup_result (fuel : nat) (w w' : World) :
  setup fuel w = Some w' ->
  (exists n, (1 <= n < fuel)%nat /\
     gps w' = gps (times n drain w) /\ rx_drains w' = (rx_drains w + n)%nat) /\
  gps_time_isValid (gps w') = true /\
  ~ (gps_time_hour (gps w') = 0 /\ gps_time_minute (gps w') = 0) /\
  lastSync w' = lastSync w /\
  (0 <= realTime w' < 86400 -> metricTime w' = realTime w' * 1000 / 864).
Proof.
  unfold setup. intros Hrun.
  destruct (setup_wait fuel true (exec setup_begin w)) as [w1|] eqn:Hwait;
    [ | discriminate Hrun].
  injection Hrun as <-.
  destruct (setup_wait_drains _ _ _ _ Hwait) as (n & Hn & Hpos & Hw1).
  specialize (Hpos eq_refl).
  assert (Hnot : ~ waiting (gps w1))
    by (apply (setup_wait_sound fuel true _ _ ltac:(discriminate) Hwait)).
  apply not_waiting in Hnot as [Hv Hhm].
  assert (Hgps : gps (exec setup_finish w1) = gps w1).
  { rewrite setup_finish_run.
    rewrite (syncGPSTime_keeps gps) by (intros ? ?; reflexivity). reflexivity. }
  assert (Hrx : rx_drains (exec setup_finish w1) = rx_drains w1).
  { rewrite setup_finish_run.
    rewrite (syncGPSTime_keeps rx_drains) by (intros ? ?; reflexivity). reflexivity. }
  assert (Hls : lastSync (exec setup_finish w1) = lastSync w1).
  { rewrite setup_finish_run, syncGPSTime_keeps_lastSync. reflexivity. }
  destruct (times_drain n (exec setup_begin w)) as [_ Ew1].
  rewrite <- Hw1 in Ew1.
  assert (Hg1 : gps w1 = gps (times n drain w)).
  { rewrite Hw1.
    destruct (times_drain n (exec setup_begin w)) as [E1 _].
    destruct (times_drain n w) as [E2 _].
    rewrite E1, E2, setup_begin_run. reflexivity. }
  split; [ | split; [ | split; [ | split]]].
  - exists n. split; [lia | split].
    + rewrite Hgps. exact Hg1.
    + rewrite Hrx, Ew1, setup_begin_run. reflexivity.
  - rewrite Hgps. exact Hv.
  - rewrite Hgps. exact Hhm.
  - rewrite Hls, Ew1, setup_begin_run. reflexivity.
  - intros Hrt. rewrite setup_finish_run in *.
    rewrite syncGPSTime_metricTime, lakhs_of_day by exact Hrt.
    apply Z.mod_small. Z.to_euclidean_division_equations. lia.
Qed.

(** The refresh at the end of a resync is all the resync sends to the
    display. *)
Lemma syncGPSTime_log w :
  exists ops, emitted w (exec syncGPSTime w) ops /\
    forallb isWrite ops = true /\
    (forall col row, In (SetCursor col row) ops -> In col DIGITS).
Proof.
  set (w3 := exec setMetricTime (exec setRealTime (exec getGPSTime w))).
  assert (Hlcd : lcd w3 = lcd w).
  { unfold w3. rewrite setMetricTime_keeps_lcd, setRealTime_keeps_lcd.
    apply getGPSTime_keeps. intros ? ?; reflexivity. }
  pose proof (updateLCD_log w3) as Hlog. unfold emitted in *.
  eexists. split; [rewrite syncGPSTime_run; fold w3; rewrite Hlog, Hlcd; reflexivity | ].
  split.
  - rewrite forallb_app, realRow_writes. reflexivity.
  - intros col row Hin. apply in_app_or in Hin as [Hin | Hin].
    + simpl in Hin.
      repeat (destruct Hin as [Hin | Hin];
              [ first [ discriminate Hin
                      | injection Hin; intros; subst; simpl; auto 10 ] | ]).
      destruct Hin.
    + unfold realRow, twoDigits in Hin.
      destruct (_ <? 10), (_ <? 10), (_ <? 10); simpl in Hin;
        repeat (destruct Hin as [Hin | Hin];
                [ first [ discriminate Hin
                        | injection Hin; intros; subst; simpl; auto 10 ] | ]);
        destruct Hin.
Qed.

(** X13.  What [setup] sends to the display, in order: the start of the
    display and the two messages, both on row 0; after the wait the labels of
    the two rows and the delimiter at columns 13 and 10 of each row; then the
    refresh of the first resync, which only prints and only moves the cursor
    to the columns of [DIGITS], so that labels and delimiters are not
    addressed again. *)
Theorem setup_display (fuel : nat) (w w' : World) :
  setup fuel w = Some w' ->
  exists refresh,
    emitted w w'
      ([LcdInit; LcdClear; LcdBacklight; SetCursor 1 0; PrintStr "Acquiring Time";
        SetCursor 2 0; PrintStr "Please Wait";
        LcdClear; SetCursor 0 0; PrintStr "Metric:";
        SetCursor 13 0; PrintChar DELIMETER; SetCursor 10 0; PrintChar DELIMETER;
        SetCursor 0 1; PrintStr "Actual:";
        SetCursor 13 1; PrintChar DELIMETER; SetCursor 10 1; PrintChar DELIMETER]
       ++ refresh) /\
    forallb isWrite refresh = true /\
    (forall col row, In (SetCursor col row) refresh -> In col DIGITS).
Proof.
  unfold setup. intros Hrun.
  destruct (setup_wait fuel true (exec setup_begin w)) as [w1|] eqn:Hwait;
    [ | discriminate Hrun].
  injection Hrun as <-.
  destruct (setup_wait_drains _ _ _ _ Hwait) as (n & _ & _ & Hw1).
  destruct (times_drain n (exec setup_begin w)) as [_ Ew1].
  rewrite <- Hw1 in Ew1.
  assert (Hlcd1 : lcd w1 =
            rev [LcdInit; LcdClear; LcdBacklight; SetCursor 1 0;
                 PrintStr "Acquiring Time"; SetCursor 2 0; PrintStr "Please Wait"]
            ++ lcd w)
    by (rewrite Ew1, setup_begin_run; reflexivity).
  rewrite setup_finish_run.
  match goal with |- context [exec syncGPSTime ?x] => set (w2 := x) end.
  destruct (syncGPSTime_log w2) as (ops & Hops & Hwr & Hcols).
  exists ops. split; [ | split; [exact Hwr | exact Hcols]].
  unfold emitted in *. rewrite Hops. unfold w2. cbn [lcd set_lcd].
  rewrite Hlcd1. rewrite rev_app_distr. cbn [rev app]. rewrite <- !app_assoc.
  reflexivity.
Qed.

(** ** The invariant of [loop] *)

Lemma u32_typed n : 0 <= u32 n < 2 ^ 32.
Proof. apply u32_range. Qed.

Lemma loop_sync_invariant w :
  (forall t, 0 <= hour t <= 23) -> (forall t, 0 <= minute t <= 59) ->
  (forall t, 0 <= second t <= 59) ->
  in_range w -> well_typed w ->
  in_range (exec loop_sync w) /\ well_typed (exec loop_sync w).
Proof.
  intros Hh Hm Hs Hin (Hnm & Hnr & Hls). rewrite loop_sync_run.
  destruct (syncDue w).
  - match goal with |- context [exec syncGPSTime ?x] => set (w1 := x) end.
    destruct (resync_values w1 _ _ _ eq_refl eq_refl eq_refl
                (Hh _) (Hm _) (Hs _)) as [Ert Emt].
    destruct (syncGPSTime_deadlines w1) as (Er & Em & _).
    split; [split | split; [ | split]].
    + rewrite Ert. pose proof (Hh (local_time (exec getGPSTime w1))).
      pose proof (Hm (local_time (exec getGPSTime w1))).
      pose proof (Hs (local_time (exec getGPSTime w1))). lia.
    + rewrite Emt. apply Z.mod_pos_bound. lia.
    + rewrite Em. apply u32_typed.
    + rewrite Er. apply u32_typed.
    + rewrite syncGPSTime_keeps_lastSync. apply u32_typed.
  - split; [exact Hin | split; [exact Hnm | split; [exact Hnr | exact Hls]]].
Qed.

Lemma loop_metric_invariant w :
  in_range w -> well_typed w ->
  in_range (exec loop_metric w) /\ well_typed (exec loop_metric w).
Proof.
  intros [Hr Hm] (Hnm & Hnr & Hls).
  destruct (loop_metric_effect w Hm) as [Emt _].
  split; [split | split; [ | split]].
  - rewrite (loop_metric_keeps realTime) by (intros ? ?; reflexivity). exact Hr.
  - rewrite Emt. destruct (metricDue w); [apply Z.mod_pos_bound; lia | exact Hm].
  - rewrite loop_metric_deadline. destruct (metricDue w); [apply u32_typed | exact Hnm].
  - rewrite (loop_metric_keeps nextRealTick) by (intros ? ?; reflexivity). exact Hnr.
  - rewrite (loop_metric_keeps lastSync) by (intros ? ?; reflexivity). exact Hls.
Qed.

Lemma loop_real_invariant w :
  in_range w -> well_typed w ->
  in_range (exec loop_real w) /\ well_typed (exec loop_real w).
Proof.
  intros [Hr Hm] (Hnm & Hnr & Hls).
  destruct (loop_real_effect w Hr) as [Ert _].
  split; [split | split; [ | split]].
  - rewrite Ert. destruct (realDue w); [apply Z.mod_pos_bound; lia | exact Hr].
  - rewrite (loop_real_keeps metricTime) by (intros ? ?; reflexivity). exact Hm.
  - rewrite (loop_real_keeps nextMetricTick) by (intros ? ?; reflexivity). exact Hnm.
  - rewrite loop_real_deadline. destruct (realDue w); [apply u32_typed | exact Hnr].
  - rewrite (loop_real_keeps lastSync) by (intros ? ?; reflexivity). exact Hls.
Qed.

(** X14.  With a Time library whose [hour], [minute] and [second] return
    values within 0..23, 0..59 and 0..59, any number of runs of [loop], with
    or without resyncs and whatever the samples of [millis()] and the bytes
    received, keeps both counters within the day and the deadlines and
    [lastSync] within the range of [unsigned long]. *)
Theorem loop_keeps_invariants (n : nat) (w : World) :
  (forall t, 0 <= hour t <= 23) -> (forall t, 0 <= minute t <= 59) ->
  (forall t, 0 <= second t <= 59) ->
  in_range w -> well_typed w ->
  in_range (times n loop w) /\ well_typed (times n loop w).
Proof.
  intros Hh Hm Hs. revert w.
  induction n as [|n IH]; intros w Hin Hwt.
  - split; assumption.
  - cbn [times]. rewrite loop_run. unfold at_real, at_metric, at_sync.
    assert (H0 : in_range (exec drain w) /\ well_typed (exec drain w))
      by (split; [exact Hin | exact Hwt]).
    destruct H0 as [Hi0 Hw0].
    destruct (loop_sync_invariant _ Hh Hm Hs Hi0 Hw0) as [Hi1 Hw1].
    destruct (loop_metric_invariant _ Hi1 Hw1) as [Hi2 Hw2].
    destruct (loop_real_invariant _ Hi2 Hw2) as [Hi3 Hw3].
    apply IH; assumption.
Qed.

(** ** The receiver and the schedule *)

(** C9, as amended.  With a receiver whose time is not valid, [getGPSTime]
    returns with the world as it was: [setTime] is not called and the clock
    of the Time library is untouched.  A resync still takes place then: it is
    [setRealTime], [setMetricTime] and [updateLCD] on the clock of the
    library, so both counters are set anew from the local time that clock
    gives and both deadlines are set to a reading of [millis()] plus the
    interval.  In a run of [loop] without resync the clocks tick as their
    deadlines say, each counter by one when its tick is due and its deadline
    by the interval, whatever the receiver holds. *)
Theorem gps_invalid_noop (w : World) :
  gps_time_isValid (gps w) = false ->
  getGPSTime w = (tt, w) /\
  exec syncGPSTime w = exec updateLCD (exec setMetricTime (exec setRealTime w)) /\
  nextRealTick (exec syncGPSTime w) = u32 (next_millis w + 1000) /\
  nextMetricTick (exec syncGPSTime w) = u32 (next_millis (exec millis w) + 864) /\
  (0 <= hour (local_time w) <= 23 -> 0 <= minute (local_time w) <= 59 ->
   0 <= second (local_time w) <= 59 ->
   realTime (exec syncGPSTime w) =
     hour (local_time w) * 3600 + minute (local_time w) * 60 + second (local_time w) /\
   metricTime (exec syncGPSTime w) =
     (realTime (exec syncGPSTime w) * 1000 / 864) mod 100000) /\
  (syncDue (at_sync w) = false -> in_range w ->
   metricTime (exec loop w) =
     (if metricDue (at_metric w) then (metricTime w + 1) mod 100000 else metricTime w) /\
   realTime (exec loop w) =
     (if realDue (at_real w) then (realTime w + 1) mod 86400 else realTime w) /\
   nextMetricTick (exec loop w) =
     (if metricDue (at_metric w) then u32 (nextMetricTick w + 864) else nextMetricTick w) /\
   nextRealTick (exec loop w) =
     (if realDue (at_real w) then u32 (nextRealTick w + 1000) else nextRealTick w)).
Proof.
  intros Hv. pose proof (getGPSTime_invalid w Hv) as Hg.
  assert (Hw : exec getGPSTime w = w) by (unfold exec; rewrite Hg; reflexivity).
  destruct (syncGPSTime_deadlines w) as (Er & Em & _).
  split; [exact Hg | split; [ | split; [exact Er | split; [exact Em | split]]]].
  - rewrite syncGPSTime_run, Hw. reflexivity.
  - intros Hh Hm Hs.
    destruct (resync_values w _ _ _ eq_refl eq_refl eq_refl) as [Ert Emt];
      rewrite ?Hw; try assumption.
    rewrite Hw in Ert, Emt. split; [exact Ert | rewrite Ert; exact Emt].
  - intros Hs [Hr Hm].
    destruct (at_real_idle w Hs) as (Ereal & _).
    assert (Hm' : 0 <= metricTime (at_metric w) < 100000)
      by (rewrite (at_metric_idle w Hs); exact Hm).
    destruct (loop_metric_effect (at_metric w) Hm') as [Emt _].
    assert (Hr' : 0 <= realTime (at_real w) < 86400) by (rewrite Ereal; exact Hr).
    destruct (loop_real_effect (at_real w) Hr') as [Ert _].
    destruct (loop_deadlines w Hs) as [Edm Edr].
    split; [ | split; [ | split; [exact Edm | exact Edr]]].
    + rewrite loop_run.
      rewrite (loop_real_keeps metricTime) by (intros ? ?; reflexivity).
      unfold at_real at 1. rewrite Emt, (at_metric_idle w Hs). reflexivity.
    + rewrite loop_run, Ert, Ereal. reflexivity.
Qed.

End Facts.

(** * Runs on the bench *)

Section Runs.

Import Bench.

(** Comparisons of numerals. *)
Ltac numerals := vm_compute; repeat split; first [reflexivity | discriminate].

(** On a silent line the receiver stays as it is. *)
Lemma silent_line j : forall w : World,
  rx_feed w = silent -> gps (times j drain w) = gps w.
Proof.
  induction j as [|j IH]; intros w Hrx.
  - reflexivity.
  - cbn [times]. rewrite IH by exact Hrx.
    unfold drain, exec, modify. cbn [snd gps set_rx_drains set_gps].
    rewrite Hrx. reflexivity.
Qed.

(** C1: at a lakh count of 125, 5001 ms after the last resync, the gate
    opens and [lastSync] becomes the reading of the counter. *)
Lemma resync_gate_witness :
  syncDue aligned = true /\
  lastSync (exec loop_sync aligned) = 5001 /\
  metricTime (exec loop_sync aligned) = 50000.
Proof.
  destruct (resync_gate aligned) as (_ & Hfire & _).
  destruct (Hfire eq_refl) as [Hrun Hlast].
  split; [reflexivity | split].
  - exact Hlast.
  - rewrite Hrun. vm_compute. reflexivity.
Defined.

(** C1, the claim as stated fails: [2 ^ 31 + 5001] ms after the last resync,
    at a lakh count divisible by 125, the difference exceeds 5000 and yet no
    resync takes place, the signed difference being negative. *)
Lemma resync_gate_counterexample :
  metricTime late mod 125 = 0 /\
  next_millis late - lastSync late > 5000 /\
  u32 (next_millis late - lastSync late) > 5000 /\
  syncDelta (next_millis late) (lastSync late) = -2147478647 /\
  exec loop_sync late = exec millis late /\
  lastSync (exec loop late) = lastSync late.
Proof. vm_compute. repeat split; reflexivity. Qed.

(** C2: the refresh at the metric time 12345. *)
Lemma refresh_metric_digits_witness :
  0 <= metricTime midday < 100000 /\
  rev (lcd (exec updateLCD midday)) =
    [SetCursor 15 0; PrintNum 5; SetCursor 14 0; PrintNum 4; SetCursor 12 0;
     PrintNum 3; SetCursor 11 0; PrintNum 2; SetCursor 9 0; PrintNum 1]
    ++ realRow (realTime midday).
Proof.
  assert (H : 0 <= metricTime midday < 100000) by numerals.
  split; [exact H | ].
  destruct (refresh_metric_digits midday H) as (Hlog & _).
  unfold emitted in Hlog. rewrite Hlog. vm_compute. reflexivity.
Defined.

(** C2, the claim as stated fails: at the metric time 12345 the refresh
    writes five digits on row 0, and none at the first of the six columns. *)
Lemma refresh_metric_digits_counterexample :
  0 <= metricTime midday < 100000 /\
  rev (lcd (exec updateLCD midday)) =
    [SetCursor 15 0; PrintNum 5; SetCursor 14 0; PrintNum 4; SetCursor 12 0;
     PrintNum 3; SetCursor 11 0; PrintNum 2; SetCursor 9 0; PrintNum 1;
     SetCursor 8 1; PrintNum 12; SetCursor 11 1; PrintNum 34;
     SetCursor 14 1; PrintNum 56] /\
  ~ In (SetCursor (nth 0 DIGITS 0) 0) (lcd (exec updateLCD midday)).
Proof.
  split; [numerals | split; [vm_compute; reflexivity | ]].
  vm_compute. intros H.
  repeat (destruct H as [H | H]; [discriminate H | ]). exact H.
Qed.

(** C3: the resync at 23:59:59. *)
Lemma resync_sets_times_witness :
  hour (local_time (exec getGPSTime last_second)) = 23 /\
  minute (local_time (exec getGPSTime last_second)) = 59 /\
  second (local_time (exec getGPSTime last_second)) = 59 /\
  realTime (exec syncGPSTime last_second) = 86399 /\
  metricTime (exec syncGPSTime last_second) = 99998.
Proof.
  assert (Hh : hour (local_time (exec getGPSTime last_second)) = 23) by reflexivity.
  assert (Hm : minute (local_time (exec getGPSTime last_second)) = 59) by reflexivity.
  assert (Hs : second (local_time (exec getGPSTime last_second)) = 59) by reflexivity.
  destruct (resync_sets_times last_second 23 59 59 Hh Hm Hs
              ltac:(lia) ltac:(lia) ltac:(lia)) as (_ & _ & Hlast & _).
  destruct (Hlast eq_refl eq_refl eq_refl) as [Hrt Hmt].
  split; [exact Hh | split; [exact Hm | split; [exact Hs | split; [exact Hrt | exact Hmt]]]].
Defined.

(** C4: six runs of the loop, each sample some hundred milliseconds past the
    deadlines; six metric ticks and five real ticks are serviced. *)
Lemma fixed_rate_schedule_witness :
  resyncs 6 running = 0%nat /\ well_typed running /\
  metricTicks 6 running = 6%nat /\ realTicks 6 running = 5%nat /\
  nextMetricTick (times 6 loop running) = 864 + 6 * 864 /\
  nextRealTick (times 6 loop running) = 1000 + 5 * 1000.
Proof.
  assert (Hs : resyncs 6 running = 0%nat) by (vm_compute; reflexivity).
  assert (Hw : well_typed running) by numerals.
  destruct (fixed_rate_schedule 6 running Hs Hw) as (_ & _ & _ & _ & Hm & Hr).
  assert (Em : metricTicks 6 running = 6%nat) by (vm_compute; reflexivity).
  assert (Er : realTicks 6 running = 5%nat) by (vm_compute; reflexivity).
  rewrite Em in Hm. rewrite Er in Hr.
  split; [exact Hs | split; [exact Hw | split; [exact Em | split; [exact Er | split]]]].
  - apply Hm. reflexivity.
  - apply Hr. reflexivity.
Defined.

(** C4, the claim as stated fails: a tick serviced at the deadline
    4294967295 leaves the deadline 863, not 4294967295 + 864. *)
Lemma fixed_rate_schedule_counterexample :
  resyncs 1 brink = 0%nat /\ metricTicks 1 brink = 1%nat /\
  nextMetricTick brink = 4294967295 /\
  nextMetricTick (times 1 loop brink) = 863 /\
  nextMetricTick (times 1 loop brink)
    <> nextMetricTick brink + Z.of_nat (metricTicks 1 brink) * 864.
Proof. vm_compute. repeat split; try reflexivity. discriminate. Qed.

(** C5: the deadline 100 ms before the overflow of the counter, the sample
    50 ms after it; the tick is serviced. *)
Lemma due_across_wraparound_witness :
  - 2 ^ (int_bits - 1) <= 150 < 2 ^ (int_bits - 1) /\
  next_millis wrapped = u32 (nextMetricTick wrapped + 150) /\
  next_millis wrapped < nextMetricTick wrapped /\
  metricDue wrapped = true /\
  nextMetricTick (exec loop_metric wrapped) = 764 /\
  metricTime (exec loop_metric wrapped) = 2.
Proof.
  assert (Hd : - 2 ^ (int_bits - 1) <= 150 < 2 ^ (int_bits - 1)) by numerals.
  destruct (due_across_wraparound wrapped 150 Hd) as [Hm _].
  destruct (Hm eq_refl) as (Hdue & _ & Hnext & Hmt).
  split; [exact Hd | split; [reflexivity | split; [reflexivity | split; [ | split]]]].
  - apply Hdue. lia.
  - exact Hnext.
  - exact Hmt.
Defined.

(** C5, the claim as stated fails: on a board with a 16-bit [int] a sample
    40 s past the deadline, a hundred-thousandth of the period of the
    counter, finds the tick not due, and the block does not tick. *)
Lemma due_across_wraparound_counterexample :
  int_bits = 16 /\
  0 <= 40000 /\ 40000 * 100000 < 2 ^ 32 /\
  next_millis stalled = nextMetricTick stalled + 40000 /\
  metricDue stalled = false /\
  exec loop_metric stalled = exec millis stalled /\
  metricTime (exec loop_metric stalled) = metricTime stalled /\
  nextMetricTick (exec loop_metric stalled) = nextMetricTick stalled.
Proof. vm_compute. repeat split; first [reflexivity | discriminate]. Qed.

(** C6: three ticks of each clock from zero. *)
Lemma tick_counts_witness :
  realTime no_fix = 0 /\ metricTime no_fix = 0 /\
  realTime (times 3 (updateRealTime true) no_fix) = 3 /\
  metricTime (times 3 (updateMetricTime true) no_fix) = 3.
Proof.
  destruct (tick_counts 3 true no_fix) as [Hr Hm].
  split; [reflexivity | split; [reflexivity | split]].
  - exact (Hr eq_refl).
  - exact (Hm eq_refl).
Defined.

(** C7: the ticks at the end of the day. *)
Lemma range_invariant_witness :
  in_range day_end /\
  in_range (exec (updateRealTime true) day_end) /\
  in_range (exec (updateMetricTime true) day_end) /\
  realTime (exec (updateRealTime true) day_end) = 0 /\
  metricTime (exec (updateMetricTime true) day_end) = 0 /\
  in_range (exec syncGPSTime day_end).
Proof.
  assert (H : in_range day_end) by numerals.
  destruct (range_invariant day_end true H) as (Hr & Hm & Hr0 & Hm0 & Hsync).
  split; [exact H | split; [exact Hr | split; [exact Hm | split; [ | split]]]].
  - exact (Hr0 eq_refl).
  - exact (Hm0 eq_refl).
  - apply Hsync; numerals.
Defined.

(** C8: the receiver decodes 00:00:30 at the first draining and 00:01:05 at
    the third; the wait ends after the third. *)
Lemma acquisition_exit_witness :
  waiting (gps (times 1 drain warming_up)) /\
  waiting (gps (times 2 drain warming_up)) /\
  gps (times 3 drain warming_up) = fixed 0 1 5 /\
  setup_wait 4 true warming_up = Some (times 3 drain warming_up).
Proof.
  assert (H1 : waiting (gps (times 1 drain warming_up)))
    by (right; split; reflexivity).
  assert (H2 : waiting (gps (times 2 drain warming_up)))
    by (right; split; reflexivity).
  destruct (acquisition_exit warming_up) as (_ & Hexit & _).
  split; [exact H1 | split; [exact H2 | split; [reflexivity | ]]].
  apply (Hexit 3%nat 4%nat); [lia | | reflexivity | vm_compute; intros [_ H]; discriminate H].
  intros j Hj. assert (Hc : j = 1%nat \/ j = 2%nat) by lia.
  destruct Hc as [-> | ->]; assumption.
Defined.

(** C8, the claim as stated fails: a receiver that holds the valid time
    00:00:30, which is not 00:00:00, keeps [setup] waiting for ever. *)
Lemma acquisition_exit_counterexample :
  gps_time_isValid (gps half_past_midnight) = true /\
  (gps_time_hour (gps half_past_midnight), gps_time_minute (gps half_past_midnight),
   gps_time_second (gps half_past_midnight)) = (0, 0, 30) /\
  (forall fuel, setup_wait fuel true half_past_midnight = None).
Proof.
  split; [reflexivity | split; [reflexivity | ]].
  intros [|n]; [reflexivity | ].
  apply (setup_wait_on n half_past_midnight).
  intros j _. rewrite silent_line by reflexivity. right. split; reflexivity.
Qed.

(** C9: a receiver that has decoded nothing; the resync sets the counters
    from the clock of the library, 12:00:00. *)
Lemma gps_invalid_noop_witness :
  gps_time_isValid (gps no_fix) = false /\
  getGPSTime no_fix = (tt, no_fix) /\
  realTime (exec syncGPSTime no_fix) = 43200 /\
  metricTime (exec syncGPSTime no_fix) = 50000 /\
  nextRealTick (exec syncGPSTime no_fix) = 1000 /\
  nextMetricTick (exec syncGPSTime no_fix) = 864.
Proof.
  destruct (gps_invalid_noop no_fix eq_refl) as (Hg & _ & Hnr & Hnm & Hval & _).
  destruct Hval as [Hrt Hmt]; [numerals | numerals | numerals | ].
  split; [reflexivity | split; [exact Hg | split; [exact Hrt | split;
    [ | split; [exact Hnr | exact Hnm]]]]].
  rewrite Hmt, Hrt. reflexivity.
Defined.

(** C9, the claim as stated fails: with a receiver that is not valid the
    gated resync of [loop] overwrites both counters and sets both deadlines
    anew, so the clocks do not go on with the schedule they had. *)
Lemma gps_invalid_noop_counterexample :
  gps_time_isValid (gps drifted) = false /\
  gps_time_isValid (gps (at_sync drifted)) = false /\
  syncDue (at_sync drifted) = true /\
  (metricTime drifted, realTime drifted) = (125, 100) /\
  (nextMetricTick drifted, nextRealTick drifted) = (5500, 5600) /\
  (metricTime (at_metric drifted), realTime (at_metric drifted)) = (50000, 43200) /\
  (nextMetricTick (at_metric drifted), nextRealTick (at_metric drifted)) = (5865, 6001) /\
  clk (at_metric drifted) = clk drifted.
Proof. vm_compute. repeat split; reflexivity. Qed.

(** X1: the refresh at the metric time 12345. *)
Lemma metric_row_round_trip_witness :
  0 <= metricTime midday /\
  exists d0 d1 d2 d3 d4,
    emitted midday (exec updateLCD midday)
      ([SetCursor 15 0; PrintNum d0; SetCursor 14 0; PrintNum d1;
        SetCursor 12 0; PrintNum d2; SetCursor 11 0; PrintNum d3;
        SetCursor 9 0; PrintNum d4] ++ realRow (realTime midday)) /\
    (0 <= d0 <= 9 /\ 0 <= d1 <= 9 /\ 0 <= d2 <= 9 /\ 0 <= d3 <= 9 /\ 0 <= d4 <= 9) /\
    d0 + 10 * d1 + 100 * d2 + 1000 * d3 + 10000 * d4 = metricTime midday mod 100000.
Proof.
  assert (H : 0 <= metricTime midday) by numerals.
  split; [exact H | exact (metric_row_round_trip midday H)].
Defined.

(** X2: the real row at 12:34:56. *)
Lemma real_row_fields_witness :
  0 <= realTime midday < 86400 /\ 0 <= metricTime midday /\
  exists hh mm ss,
    emitted midday (exec updateLCD midday)
      (metricRow (metricTime midday) ++
       twoDigits 8 hh ++ twoDigits 11 mm ++ twoDigits 14 ss) /\
    0 <= hh <= 23 /\ 0 <= mm <= 59 /\ 0 <= ss <= 59 /\
    hh * 3600 + mm * 60 + ss = realTime midday.
Proof.
  assert (Hr : 0 <= realTime midday < 86400) by numerals.
  assert (Hm : 0 <= metricTime midday) by numerals.
  split; [exact Hr | split; [exact Hm | exact (real_row_fields midday Hr Hm)]].
Defined.

(** X3: the resync at 23:59:59 shows 9:99:98 and 23:59:59. *)
Lemma resync_shows_local_time_witness :
  hour (local_time (exec getGPSTime last_second)) = 23 /\
  minute (local_time (exec getGPSTime last_second)) = 59 /\
  second (local_time (exec getGPSTime last_second)) = 59 /\
  emitted last_second (exec syncGPSTime last_second)
    (metricRow 99998 ++ twoDigits 8 23 ++ twoDigits 11 59 ++ twoDigits 14 59).
Proof.
  assert (Hh : hour (local_time (exec getGPSTime last_second)) = 23) by reflexivity.
  assert (Hm : minute (local_time (exec getGPSTime last_second)) = 59) by reflexivity.
  assert (Hs : second (local_time (exec getGPSTime last_second)) = 59) by reflexivity.
  split; [exact Hh | split; [exact Hm | split; [exact Hs | ]]].
  exact (resync_shows_local_time last_second 23 59 59 Hh Hm Hs
           ltac:(lia) ltac:(lia) ltac:(lia)).
Defined.

(** X4: 108 seconds are 125 lakhs. *)
Lemma conversion_whole_lakhs_witness :
  0 <= realTime aligned < 86400 /\ realTime aligned mod 108 = 0 /\
  metricTime (exec setMetricTime aligned) * 864 = realTime aligned * 1000 /\
  metricTime (exec setMetricTime aligned) mod 125 = 0.
Proof.
  assert (Hr : 0 <= realTime aligned < 86400) by numerals.
  destruct (conversion_whole_lakhs aligned Hr) as (_ & _ & Hal & _).
  split; [exact Hr | split; [reflexivity | exact (Hal eq_refl)]].
Defined.

(** X5: one period of 108 s from 0:01:48. *)
Lemma ticks_keep_alignment_witness :
  0 <= 1 < 800 /\ realTime aligned = 108 * 1 /\ metricTime aligned = 125 * 1 /\
  realTime (times (125 * 1) (updateMetricTime true)
              (times (108 * 1) (updateRealTime true) aligned)) = 216 /\
  metricTime (times (125 * 1) (updateMetricTime true)
                (times (108 * 1) (updateRealTime true) aligned)) = 250.
Proof.
  assert (Hq : 0 <= 1 < 800) by lia.
  split; [exact Hq | split; [reflexivity | split; [reflexivity | ]]].
  exact (ticks_keep_alignment 1 true true 1 aligned Hq eq_refl eq_refl).
Defined.

(** X6: a sample 889 ms after the reading of [setMetricTime] and 989 ms
    after the reading of [setRealTime] finds the metric tick due and the real
    tick not. *)
Lemma resync_rephases_witness :
  nextRealTick (exec syncGPSTime resynced) = 6001 /\
  nextMetricTick (exec syncGPSTime resynced) = 5965 /\
  next_millis (exec syncGPSTime resynced) = 5990 /\
  metricDue (exec syncGPSTime resynced) = true /\
  realDue (exec syncGPSTime resynced) = false.
Proof.
  destruct (resync_rephases resynced 889) as (Hr & Hm & Hmd & _).
  destruct (resync_rephases resynced 989) as (_ & _ & _ & Hrd).
  assert (Hnow : next_millis (exec syncGPSTime resynced) = 5990)
    by (vm_compute; reflexivity).
  split; [exact Hr | split; [exact Hm | split; [exact Hnow | split]]].
  - apply Hmd; [numerals | rewrite Hnow; reflexivity | lia].
  - assert (Hb : - 2 ^ (int_bits - 1) <= 989 - 1000 < 2 ^ (int_bits - 1)) by numerals.
    destruct (Hrd Hb ltac:(rewrite Hnow; reflexivity)) as [Hfwd _].
    destruct (realDue (exec syncGPSTime resynced)); [ | reflexivity].
    specialize (Hfwd eq_refl). lia.
Defined.

(** X7: 40 s past the deadline on a board with a 16-bit [int]. *)
Lemma stall_suppresses_tick_witness :
  2 ^ (int_bits - 1) <= 40000 < 2 ^ int_bits /\
  next_millis stalled = u32 (nextMetricTick stalled + 40000) /\
  metricDue stalled = false /\ exec loop_metric stalled = exec millis stalled.
Proof.
  assert (Hd : 2 ^ (int_bits - 1) <= 40000 < 2 ^ int_bits) by numerals.
  destruct (stall_suppresses_tick stalled 40000 Hd) as [Hm _].
  split; [exact Hd | split; [reflexivity | exact (Hm eq_refl)]].
Defined.

(** X8: the first run of the sampled loop services both ticks. *)
Lemma loop_single_step_witness :
  syncDue (at_sync running) = false /\ in_range running /\
  metricTime (exec loop running) = 2 /\ realTime (exec loop running) = 2 /\
  ms_reads (exec loop running) = 3%nat.
Proof.
  assert (Hs : syncDue (at_sync running) = false) by reflexivity.
  assert (Hi : in_range running) by numerals.
  destruct (loop_single_step running Hs Hi) as (Hm & Hr & Hreads & _).
  split; [exact Hs | split; [exact Hi | split; [ | split]]].
  - rewrite Hm. vm_compute. reflexivity.
  - rewrite Hr. vm_compute. reflexivity.
  - exact Hreads.
Defined.

(** X9: three runs of the sampled loop, each later than the one before. *)
Lemma late_metric_ticks_catch_up_witness :
  resyncs 3 running = 0%nat /\
  metricTicks 3 running = 3%nat /\
  metricTime (times 3 loop running) = 4 /\
  nextMetricTick (times 3 loop running) = 3456.
Proof.
  assert (Hs : resyncs 3 running = 0%nat) by (vm_compute; reflexivity).
  destruct (late_metric_ticks_catch_up 3 (fun i => 296 + 870 * Z.of_nat i) running Hs)
    as (Hk & Hm & Hn).
  - numerals.
  - numerals.
  - intros i Hi. assert (Hc : i = 0%nat \/ i = 1%nat \/ i = 2%nat) by lia.
    destruct Hc as [-> | [-> | ->]]; numerals.
  - split; [exact Hs | split; [exact Hk | split; [exact Hm | exact Hn]]].
Defined.

(** X10: the real clock in the same three runs. *)
Lemma late_real_ticks_catch_up_witness :
  resyncs 3 running = 0%nat /\
  realTicks 3 running = 3%nat /\
  realTime (times 3 loop running) = 4 /\
  nextRealTick (times 3 loop running) = 4000.
Proof.
  assert (Hs : resyncs 3 running = 0%nat) by (vm_compute; reflexivity).
  destruct (late_real_ticks_catch_up 3 (fun i => 450 + 870 * Z.of_nat i) running Hs)
    as (Hk & Hm & Hn).
  - numerals.
  - numerals.
  - intros i Hi. assert (Hc : i = 0%nat \/ i = 1%nat \/ i = 2%nat) by lia.
    destruct Hc as [-> | [-> | ->]]; numerals.
  - split; [exact Hs | split; [exact Hk | split; [exact Hm | exact Hn]]].
Defined.

(** X12 and X13: [setup] on the receiver that decodes 00:01:05 at the third
    draining. *)
Lemma setup_result_witness :
  match setup 4 warming_up with
  | Some w' =>
      gps w' = fixed 0 1 5 /\ rx_drains w' = 3%nat /\ lastSync w' = 0 /\
      realTime w' = 65 /\ metricTime w' = 75
  | None => False
  end.
Proof.
  destruct (setup 4 warming_up) as [w'|] eqn:Hrun; [ | vm_compute in Hrun; discriminate].
  destruct (setup_result 4 warming_up w' Hrun) as (_ & _ & _ & Hls & _).
  assert (Hw : Some w' = setup 4 warming_up) by (symmetry; exact Hrun).
  vm_compute in Hw. injection Hw as ->. repeat split.
Defined.

Lemma setup_display_witness :
  match setup 4 warming_up with
  | Some w' => In (SetCursor 13 1) (lcd w') /\ In (PrintStr "Please Wait") (lcd w')
  | None => False
  end.
Proof.
  destruct (setup 4 warming_up) as [w'|] eqn:Hrun; [ | vm_compute in Hrun; discriminate].
  destruct (setup_display 4 warming_up w' Hrun) as (refresh & Hlog & _).
  unfold emitted in Hlog. rewrite Hlog. split; apply in_or_app; left;
    apply in_rev; rewrite rev_involutive; apply in_or_app; left; simpl; auto 25.
Defined.

(** X14: ten runs of the sampled loop on the bench, whose Time library
    returns fields of a time of day. *)
Lemma loop_keeps_invariants_witness :
  (forall t, 0 <= hour t <= 23) /\ (forall t, 0 <= minute t <= 59) /\
  (forall t, 0 <= second t <= 59) /\
  in_range running /\ well_typed running /\
  in_range (times 10 loop running) /\ well_typed (times 10 loop running).
Proof.
  assert (Hh : forall t, 0 <= hour t <= 23)
    by (intros t; cbn [hour board]; pose proof (Z.mod_pos_bound (t / 3600) 24); lia).
  assert (Hm : forall t, 0 <= minute t <= 59)
    by (intros t; cbn [minute board]; pose proof (Z.mod_pos_bound (t / 60) 60); lia).
  assert (Hs : forall t, 0 <= second t <= 59)
    by (intros t; cbn [second board]; pose proof (Z.mod_pos_bound t 60); lia).
  assert (Hi : in_range running) by numerals.
  assert (Hw : well_typed running) by numerals.
  split; [exact Hh | split; [exact Hm | split; [exact Hs | split; [exact Hi | split;
    [exact Hw | ]]]]].
  exact (loop_keeps_invariants 10 running Hh Hm Hs Hi Hw).
Defined.

End Runs.
